(** * Decision-and-replay core of the trading system

    A shallow embedding of the backtesting replay engine
    ([services/learning/backtesting.py]), the risk sizer
    ([core/strategy/risk_manager.py]), the live position manager
    ([core/strategy/position_manager.py]), the trading loop of
    [traders/trader_base.py] and the market-data preparation of
    [core/strategy/signal_generator.py].

    Python floats are idealised as exact rationals ([Q]); equalities between
    computed amounts are stated up to [Qeq].  Python exceptions are values of
    an error monad. *)

From Stdlib Require Import QArith Qabs ZArith List String Bool Lia Lqa Sorted.
Import ListNotations.

Open Scope Q_scope.

(* ------------------------------------------------------------------ *)
(** ** Python runtime: exceptions, division, dictionaries             *)
(* ------------------------------------------------------------------ *)

Module Py.

Inductive exn : Type :=
| ZeroDivisionError
| AttributeError (attr : string)
| TypeError (msg : string)
| NameError (name : string)
| KeyError (key : string)
| IndexError.

Inductive result (A : Type) : Type :=
| Ok (a : A)
| Raise (e : exn).

Arguments Ok {A} a.
Arguments Raise {A} e.

Definition bind {A B : Type} (m : result A) (k : A -> result B) : result B :=
  match m with
  | Ok a => k a
  | Raise e => Raise e
  end.

Definition is_ok {A : Type} (m : result A) : bool :=
  match m with Ok _ => true | Raise _ => false end.

(** [a / b] on Python numbers: a zero divisor raises. *)
Definition py_div (a b : Q) : result Q :=
  if Qeq_bool b 0 then Raise ZeroDivisionError else Ok (a / b).

(** A [dict] with string keys, in insertion order. *)
Definition dict (V : Type) : Type := list (string * V).

Fixpoint dict_get {V : Type} (k : string) (d : dict V) : option V :=
  match d with
  | [] => None
  | (k', v) :: d' => if String.eqb k k' then Some v else dict_get k d'
  end.

(** [d.get(k, default)] *)
Definition dict_get_default {V : Type} (k : string) (default : V) (d : dict V) : V :=
  match dict_get k d with
  | Some v => v
  | None => default
  end.

(** [k in d] *)
Definition dict_mem {V : Type} (k : string) (d : dict V) : bool :=
  match dict_get k d with Some _ => true | None => false end.

(** [d[k] = v]: an existing key keeps its place, a new key goes last. *)
Fixpoint dict_set {V : Type} (k : string) (v : V) (d : dict V) : dict V :=
  match d with
  | [] => [(k, v)]
  | (k', v') :: d' =>
      if String.eqb k k' then (k, v) :: d' else (k', v') :: dict_set k v d'
  end.

(** [d.pop(k, None)]: the binding removed, if any, and the remaining dict. *)
Fixpoint dict_pop {V : Type} (k : string) (d : dict V) : option V * dict V :=
  match d with
  | [] => (None, [])
  | (k', v') :: d' =>
      if String.eqb k k' then (Some v', d')
      else let (r, d'') := dict_pop k d' in (r, (k', v') :: d'')
  end.

Definition dict_keys {V : Type} (d : dict V) : list string := map fst d.

(** Number of bindings a dict holds for key [k]. *)
Definition dict_count {V : Type} (k : string) (d : dict V) : nat :=
  List.length (filter (fun kv => String.eqb k (fst kv)) d).

(** No key is bound twice. *)
Definition unique_keys {V : Type} (d : dict V) : Prop :=
  forall k, (dict_count k d <= 1)%nat.

End Py.

Import Py.

Notation "x <- m ;; k" := (bind m (fun x => k))
  (at level 61, m at next level, right associativity).

(** Sum of [f] over a list. *)
Fixpoint Qsum {A : Type} (f : A -> Q) (l : list A) : Q :=
  match l with
  | [] => 0
  | x :: l' => f x + Qsum f l'
  end.

(* ------------------------------------------------------------------ *)
(** ** Backtesting replay engine                                      *)
(* ------------------------------------------------------------------ *)

Module Backtest.

(** The signal attached to a bar: [{'action': ...}]. *)
Record Signal : Type := mkSignal { action : string }.

(** One row of [market_data]. *)
Record Bar : Type := mkBar {
  timestamp : Z;
  price : Q;
  signal : Signal
}.

Record Position : Type := mkPosition {
  entry_time : Z;
  entry_price : Q;
  amount : Q;
  direction : string;
  stop_loss : Q;
  take_profit : Q
}.

Record Trade : Type := mkTrade {
  t_entry_time : Z;
  t_exit_time : Z;
  t_entry_price : Q;
  t_exit_price : Q;
  t_amount : Q;
  t_direction : string;
  pnl_pct : Q;
  reason : string
}.

Record EquityPoint : Type := mkEquityPoint {
  eq_timestamp : Z;
  eq_balance : Q
}.

(** The trade appended when [position] is closed at [current_price]. *)
Definition closing_trade (position : Position) (current_price : Q)
    (current_time : Z) (pnl : Q) (why : string) : Trade :=
  {| t_entry_time := entry_time position;
     t_exit_time := current_time;
     t_entry_price := entry_price position;
     t_exit_price := current_price;
     t_amount := amount position;
     t_direction := "long";
     pnl_pct := pnl;
     reason := why |}.

(** [Backtesting._process_signal]: the updated balance, the updated position
    and the trades emitted on this bar.  The [trades] argument of the source
    is never read and is left out. *)
Definition _process_signal (signal : Signal) (current_price : Q)
    (current_time : Z) (balance : Q) (position : option Position)
    (sl_pct tp_pct fee_percentage position_size_pct : Q)
    : result (Q * option Position * list Trade) :=
  match position with
  | None =>
      if String.eqb (action signal) "BUY" then
        let position_size := balance * position_size_pct / 100 in
        position_amount <- py_div position_size current_price ;;
        let commission := position_size * fee_percentage / 100 in
        let position :=
          {| entry_time := current_time;
             entry_price := current_price;
             amount := position_amount;
             direction := "long";
             stop_loss := current_price * (1 - sl_pct / 100);
             take_profit := current_price * (1 + tp_pct / 100) |} in
        Ok (balance - commission, Some position, [])
      else Ok (balance, None, [])
  | Some pos =>
      if String.eqb (direction pos) "long" then
        if Qle_bool current_price (stop_loss pos) then
          r <- py_div current_price (entry_price pos) ;;
          let pnl := (r - 1) * 100 in
          let amount_value := amount pos * current_price in
          let commission := amount_value * fee_percentage / 100 in
          Ok (balance + (amount_value - commission), None,
              [closing_trade pos current_price current_time pnl "stop_loss"])
        else if Qle_bool (take_profit pos) current_price then
          r <- py_div current_price (entry_price pos) ;;
          let pnl := (r - 1) * 100 in
          let amount_value := amount pos * current_price in
          let commission := amount_value * fee_percentage / 100 in
          Ok (balance + (amount_value - commission), None,
              [closing_trade pos current_price current_time pnl "take_profit"])
        else Ok (balance, Some pos, [])
      else Ok (balance, Some pos, [])
  end.

(** The local variables of [run_backtest] that the loop updates. *)
Record LoopState : Type := mkLoopState {
  balance : Q;
  position : option Position;
  trades : list Trade;
  equity_curve : list EquityPoint
}.

(** The strategy parameters read from [strategy_params], with their defaults. *)
Record Params : Type := mkParams {
  sl_pct : Q;
  tp_pct : Q;
  fee_percentage : Q;
  position_size_pct : Q
}.

Definition read_params (strategy_params : dict Q) : Params :=
  {| sl_pct := dict_get_default "stop_loss_pct" 2 strategy_params;
     tp_pct := dict_get_default "take_profit_pct" 4 strategy_params;
     fee_percentage := dict_get_default "fee_pct" (1 # 10) strategy_params;
     position_size_pct := dict_get_default "position_size_pct" 10 strategy_params |}.

(** One iteration of the [for index, row in market_data.iterrows()] loop. *)
Definition loop_body (p : Params) (row : Bar) (st : LoopState) : result LoopState :=
  let current_time := timestamp row in
  let current_price := price row in
  let equity_curve := equity_curve st ++ [mkEquityPoint current_time (balance st)] in
  r <- _process_signal (signal row) current_price current_time
         (balance st) (position st)
         (sl_pct p) (tp_pct p) (fee_percentage p) (position_size_pct p) ;;
  match r with
  | (balance, position, new_trades) =>
      Ok {| balance := balance;
            position := position;
            trades := trades st ++ new_trades;
            equity_curve := equity_curve |}
  end.

Fixpoint backtest_loop (p : Params) (rows : list Bar) (st : LoopState)
    : result LoopState :=
  match rows with
  | [] => Ok st
  | row :: rows' =>
      st' <- loop_body p row st ;;
      backtest_loop p rows' st'
  end.

(** [market_data[(timestamp >= start_date) & (timestamp <= end_date)]] *)
Definition filter_dates (start_date end_date : Z) (market_data : list Bar) : list Bar :=
  filter (fun row => (start_date <=? timestamp row)%Z && (timestamp row <=? end_date)%Z)
         market_data.

Definition initial_state (initial_capital : Q) : LoopState :=
  {| balance := initial_capital; position := None; trades := []; equity_curve := [] |}.

(** A metric that pandas or Python may report as [float('inf')]. *)
Inductive ext : Type :=
| Fin (q : Q)
| PosInf.

(** The fields of the metrics dict computed by plain Python arithmetic.
    [max_drawdown_pct] and [sharpe_ratio] are computed by pandas series
    operations (cummax, pct_change, std, a square root) on the ['balance']
    column of the equity curve; their values are not part of this model,
    only the [KeyError] that reading the column raises when the curve is
    empty and the frame has no such column. *)
Record Metrics : Type := mkMetrics {
  total_return_pct : Q;
  profit_factor : ext;
  win_rate : Q;
  total_trades : nat;
  winning_trades : nat;
  losing_trades : nat
}.

(** Python's [sum]: starts from 0 and adds from the left. *)
Definition py_sum (l : list Q) : Q := fold_left Qplus l 0.

Definition is_winning (t : Trade) : bool := negb (Qle_bool (pnl_pct t) 0).
Definition is_losing (t : Trade) : bool := Qle_bool (pnl_pct t) 0.

(** [len(a) / len(b)] on Python ints. *)
Definition len_ratio {A B : Type} (a : list A) (b : list B) : result Q :=
  py_div (inject_Z (Z.of_nat (List.length a))) (inject_Z (Z.of_nat (List.length b))).

(** [Backtesting._calculate_performance_metrics] *)
Definition _calculate_performance_metrics (initial_capital final_balance : Q)
    (trades : list Trade) (equity_curve : list EquityPoint) : result Metrics :=
  match trades with
  | [] =>
      Ok {| total_return_pct := 0;
            profit_factor := Fin 0;
            win_rate := 0;
            total_trades := 0;
            winning_trades := 0;
            losing_trades := 0 |}
  | _ :: _ =>
      r <- py_div (final_balance - initial_capital) initial_capital ;;
      let total_return := r * 100 in
      let winning_trades := filter is_winning trades in
      let losing_trades := filter is_losing trades in
      win_rate <- len_ratio winning_trades trades ;;
      let total_profit := py_sum (map pnl_pct winning_trades) in
      let total_loss := Qabs (py_sum (map pnl_pct losing_trades)) in
      profit_factor <-
        (if negb (Qle_bool total_loss 0)
         then (q <- py_div total_profit total_loss ;; Ok (Fin q))
         else Ok PosInf) ;;
      _ <- (match equity_curve with
            | [] => Raise (KeyError "balance")
            | _ :: _ => Ok tt
            end) ;;
      Ok {| total_return_pct := total_return;
            profit_factor := profit_factor;
            win_rate := win_rate;
            total_trades := List.length trades;
            winning_trades := List.length winning_trades;
            losing_trades := List.length losing_trades |}
  end.

(** The methods that [run_backtest] looks up on [self] and that a class may
    or may not define.  [None] is an attribute the class does not have. *)
Record BacktestingClass (Report : Type) : Type := mkBacktestingClass {
  _generate_report :
    option (string -> Z -> Z -> Q -> Metrics -> list Trade -> list EquityPoint
            -> result Report)
}.

Arguments _generate_report {Report} _.

(** [class Backtesting] as the repository has it: its body defines
    [__init__], [run_backtest], [_process_signal] and
    [_calculate_performance_metrics], and nothing else. *)
Definition Backtesting (Report : Type) : BacktestingClass Report :=
  {| _generate_report := None |}.

(** [self.name(...)] on an attribute that may be missing. *)
Definition lookup {F : Type} (name : string) (attr : option F) : result F :=
  match attr with
  | Some f => Ok f
  | None => Raise (AttributeError name)
  end.

(** [Backtesting.run_backtest] *)
Definition run_backtest {Report : Type} (self : BacktestingClass Report)
    (symbol : string) (start_date end_date : Z) (initial_capital : Q)
    (strategy_params : dict Q) (market_data : list Bar) : result Report :=
  let p := read_params strategy_params in
  let market_data := filter_dates start_date end_date market_data in
  st <- backtest_loop p market_data (initial_state initial_capital) ;;
  performance_metrics <-
    _calculate_performance_metrics initial_capital (balance st) (trades st)
      (equity_curve st) ;;
  generate <- lookup "_generate_report" (_generate_report self) ;;
  generate symbol start_date end_date initial_capital performance_metrics
    (trades st) (equity_curve st).

(** Ghost accounting, used only in statements: the commission charged on a
    bar, read off the two places where the source computes [commission]. *)
Definition commission_charged (signal : Signal) (current_price balance : Q)
    (position : option Position) (fee_percentage position_size_pct : Q) : Q :=
  match position with
  | None =>
      if String.eqb (action signal) "BUY"
      then (balance * position_size_pct / 100) * fee_percentage / 100
      else 0
  | Some pos =>
      if String.eqb (direction pos) "long" then
        if Qle_bool current_price (stop_loss pos)
           || Qle_bool (take_profit pos) current_price
        then (amount pos * current_price) * fee_percentage / 100
        else 0
      else 0
  end.

(** Total commission charged while replaying [rows] from [st]. *)
Fixpoint commissions (p : Params) (rows : list Bar) (st : LoopState) : Q :=
  match rows with
  | [] => 0
  | row :: rows' =>
      match loop_body p row st with
      | Ok st' =>
          commission_charged (signal row) (price row) (balance st) (position st)
            (fee_percentage p) (position_size_pct p)
          + commissions p rows' st'
      | Raise _ => 0
      end
  end.

(** Realized profit of a closed trade in currency units. *)
Definition realized_pnl_notional (t : Trade) : Q :=
  t_amount t * (t_exit_price t - t_entry_price t).

(** The currency credited to the balance when a trade closes. *)
Definition proceeds (t : Trade) : Q := t_amount t * t_exit_price t.

(** The currency that the position of a trade was opened with. *)
Definition cost_basis (t : Trade) : Q := t_amount t * t_entry_price t.

(** The states reached after each bar, up to the first bar that raises. *)
Fixpoint backtest_states (p : Params) (rows : list Bar) (st : LoopState)
    : list LoopState :=
  match rows with
  | [] => []
  | row :: rows' =>
      match loop_body p row st with
      | Ok st' => st' :: backtest_states p rows' st'
      | Raise _ => []
      end
  end.

(** A trade of a long position closed by one of the two price triggers. *)
Definition long_exit (t : Trade) : Prop :=
  t_direction t = "long"%string /\
  (reason t = "stop_loss"%string \/ reason t = "take_profit"%string).

(** The open position, if any, was entered at a non-zero price. *)
Definition entry_nonzero (st : LoopState) : Prop :=
  match position st with
  | Some q => ~ entry_price q == 0
  | None => True
  end.

(** Number of open positions a replay state holds. *)
Definition open_positions (st : LoopState) : nat :=
  match position st with Some _ => 1%nat | None => 0%nat end.

(** Number of bars, while replaying [rows] from [st], on which a position
    is opened. *)
Fixpoint positions_opened (p : Params) (rows : list Bar) (st : LoopState) : nat :=
  match rows with
  | [] => 0
  | row :: rows' =>
      match loop_body p row st with
      | Ok st' =>
          (match position st, position st' with
           | None, Some _ => 1
           | _, _ => 0
           end + positions_opened p rows' st')%nat
      | Raise _ => 0%nat
      end
  end.

(** The open position, if any, is long, was entered at a non-zero price and
    carries the stop and take levels of the run's parameters. *)
Definition levels_set (p : Params) (st : LoopState) : Prop :=
  match position st with
  | Some q =>
      direction q = "long"%string /\
      ~ entry_price q == 0 /\
      stop_loss q = entry_price q * (1 - sl_pct p / 100) /\
      take_profit q = entry_price q * (1 + tp_pct p / 100)
  | None => True
  end.

(** A trade closed by the trigger its reason names, at the levels of the
    run's parameters, with the pnl of its prices. *)
Definition triggered (p : Params) (t : Trade) : Prop :=
  ~ t_entry_price t == 0 /\
  pnl_pct t = (t_exit_price t / t_entry_price t - 1) * 100 /\
  ((reason t = "stop_loss"%string /\
    t_exit_price t <= t_entry_price t * (1 - sl_pct p / 100))
   \/
   (reason t = "take_profit"%string /\
    t_entry_price t * (1 - sl_pct p / 100) < t_exit_price t /\
    t_entry_price t * (1 + tp_pct p / 100) <= t_exit_price t)).

(** The first trade was closed no later than the second was entered. *)
Definition closed_before (t1 t2 : Trade) : Prop :=
  (t_exit_time t1 <= t_entry_time t2)%Z.

End Backtest.

(* ------------------------------------------------------------------ *)
(** ** Risk sizer                                                     *)
(* ------------------------------------------------------------------ *)

Module Risk.

Record RiskManager : Type := mkRiskManager {
  account_balance : Q;
  max_risk_per_trade : Q
}.

(** [RiskManager.__init__] *)
Definition init (account_balance : Q) : RiskManager :=
  {| account_balance := account_balance; max_risk_per_trade := 2 # 100 |}.

(** [RiskManager.calculate_position_size(stop_loss, entry_price)] *)
Definition calculate_position_size (self : RiskManager) (stop_loss entry_price : Q)
    : result Q :=
  let risk_amount := account_balance self * max_risk_per_trade self in
  let risk_per_unit := Qabs (entry_price - stop_loss) in
  if negb (Qle_bool risk_per_unit 0)
  then py_div risk_amount risk_per_unit
  else Ok 0.

(** What [validate_signal] may be handed: something that is not a dict, or
    a dict with or without a ['confidence'] key. *)
Inductive signal_arg : Type :=
| NotADict
| SignalDict (confidence : option Q).

(** [RiskManager.validate_signal] *)
Definition validate_signal (self : RiskManager) (signal : signal_arg) : bool :=
  match signal with
  | NotADict => false
  | SignalDict None => false
  | SignalDict (Some confidence) =>
      if negb (Qle_bool (6 # 10) confidence) then false else true
  end.

(** [RiskManager.get_position_limit] *)
Definition get_position_limit (self : RiskManager) (symbol : string) : Q :=
  if String.eqb symbol "BTC/USDT"
  then account_balance self * (1 # 10)
  else account_balance self * (5 # 100).

(** [RiskManager.calculate_stop_loss] *)
Definition calculate_stop_loss (self : RiskManager) (symbol : string)
    (entry_price : Q) (action : string) : Q :=
  if String.eqb action "BUY" then entry_price * (95 # 100)
  else if String.eqb action "SELL" then entry_price * (105 # 100)
  else entry_price.

End Risk.

(* ------------------------------------------------------------------ *)
(** ** Live position manager                                          *)
(* ------------------------------------------------------------------ *)

Module Live.

(** The signal dict that [execute] reads. *)
Record LiveSignal : Type := mkLiveSignal {
  signal : Z;
  s_stop_loss : Q;
  s_take_profit : Q
}.

Record LivePosition : Type := mkLivePosition {
  side : string;
  quantity : Q;
  entry_price : Q;
  stop_loss : Q;
  take_profit : Q
}.

(** A call of [binance_connector.create_order]. *)
Record Order : Type := mkOrder {
  o_symbol : string;
  o_side : string;
  o_type : string;
  o_quantity : Q
}.

(** The instance state, with the orders sent to the connector so far. *)
Record PositionManager : Type := mkPositionManager {
  positions : dict LivePosition;
  last_trade_time : dict Q;
  min_trade_interval : Q;
  orders : list Order
}.

(** [PositionManager.__init__] *)
Definition init : PositionManager :=
  {| positions := []; last_trade_time := []; min_trade_interval := 60; orders := [] |}.

(** What the risk manager handed to the constructor answers to
    [calculate_position_size(risk_per_trade=..., volatility=..., method=...)]. *)
Class RiskSizer : Type := {
  calculate_position_size_kw : Q -> Q -> string -> result Q
}.

(** The repository's [RiskManager.calculate_position_size(self, stop_loss,
    entry_price)] accepts none of these keywords. *)
Definition RiskManager_sizer : RiskSizer :=
  {| calculate_position_size_kw := fun _ _ _ =>
       Raise (TypeError "calculate_position_size() got an unexpected keyword argument") |}.

(** What the clock and the connector answer during one call of [execute]. *)
Record ExecEnv : Type := mkExecEnv {
  clock_can_trade : Q;           (* time.time() in _can_trade *)
  ohlcv_1h : list Q;             (* closes of get_ohlcv(symbol, "1h", 14); [] when falsy *)
  order_fills : option (list Q); (* prices of order['fills']; None when the order is falsy *)
  clock_opened : Q               (* time.time() in _open_position *)
}.

(** [PositionManager._can_trade] *)
Definition _can_trade (now : Q) (self : PositionManager) (symbol : string) : bool :=
  let last_time := dict_get_default symbol 0 (last_trade_time self) in
  Qle_bool (min_trade_interval self) (now - last_time).

(** [PositionManager._get_volatility]: the module never imports [pd], so the
    branch that builds a [pd.Series] raises. *)
Definition _get_volatility (ohlcv : list Q) : result Q :=
  match ohlcv with
  | [] => Ok (1 # 100)
  | _ :: _ => Raise (NameError "pd")
  end.

Definition send_order (o : Order) (self : PositionManager) : PositionManager :=
  {| positions := positions self;
     last_trade_time := last_trade_time self;
     min_trade_interval := min_trade_interval self;
     orders := orders self ++ [o] |}.

(** [PositionManager._open_position] *)
Definition _open_position (env : ExecEnv) (symbol side : string)
    (quantity stop_loss take_profit : Q) (self : PositionManager)
    : PositionManager * result unit :=
  let order_type := "MARKET"%string in
  let self := send_order (mkOrder symbol side order_type quantity) self in
  match order_fills env with
  | None => (self, Ok tt)
  | Some [] => (self, Raise IndexError)
  | Some (fill_price :: _) =>
      ({| positions :=
            dict_set symbol
              {| side := side;
                 quantity := quantity;
                 entry_price := fill_price;
                 stop_loss := stop_loss;
                 take_profit := take_profit |}
              (positions self);
          last_trade_time := dict_set symbol (clock_opened env) (last_trade_time self);
          min_trade_interval := min_trade_interval self;
          orders := orders self |},
       Ok tt)
  end.

(** [PositionManager.execute] *)
Definition execute {RS : RiskSizer} (env : ExecEnv) (sig : LiveSignal)
    (self : PositionManager) : PositionManager * result unit :=
  let symbol := "BTCUSDT"%string in
  if (signal sig =? 0)%Z then (self, Ok tt)
  else if negb (_can_trade (clock_can_trade env) self symbol) then (self, Ok tt)
  else
    match _get_volatility (ohlcv_1h env) with
    | Raise e => (self, Raise e)
    | Ok volatility =>
        match calculate_position_size_kw (1 # 100) volatility "volatility" with
        | Raise e => (self, Raise e)
        | Ok position_size =>
            if (signal sig =? 1)%Z then
              _open_position env symbol "BUY" position_size
                (s_stop_loss sig) (s_take_profit sig) self
            else if (signal sig =? -1)%Z then
              _open_position env symbol "SELL" position_size
                (s_stop_loss sig) (s_take_profit sig) self
            else (self, Ok tt)
        end
    end.

(** [PositionManager._close_position] *)
Definition _close_position (symbol : string) (self : PositionManager) : PositionManager :=
  let (popped, remaining) := dict_pop symbol (positions self) in
  let self :=
    {| positions := remaining;
       last_trade_time := last_trade_time self;
       min_trade_interval := min_trade_interval self;
       orders := orders self |} in
  match popped with
  | Some position =>
      let side := if String.eqb (side position) "BUY" then "SELL"%string else "BUY"%string in
      send_order (mkOrder symbol side "MARKET" (quantity position)) self
  | None => self
  end.

(** The body of the loop of [monitor_positions] over the snapshot
    [list(self.positions.items())]; [last_price symbol] is what
    [float(get_ohlcv(symbol, "1m", 1)[-1][4])] evaluates to. *)
Fixpoint monitor_items (last_price : string -> result Q)
    (items : list (string * LivePosition)) (self : PositionManager)
    : PositionManager * result unit :=
  match items with
  | [] => (self, Ok tt)
  | (symbol, position) :: items' =>
      match last_price symbol with
      | Raise e => (self, Raise e)
      | Ok current_price =>
          let self :=
            if String.eqb (side position) "BUY"
               && Qle_bool current_price (stop_loss position)
            then _close_position symbol self
            else if String.eqb (side position) "SELL"
                    && Qle_bool (stop_loss position) current_price
            then _close_position symbol self
            else self in
          let self :=
            if String.eqb (side position) "BUY"
               && Qle_bool (take_profit position) current_price
            then _close_position symbol self
            else if String.eqb (side position) "SELL"
                    && Qle_bool current_price (take_profit position)
            then _close_position symbol self
            else self in
          monitor_items last_price items' self
      end
  end.

(** [PositionManager.monitor_positions] *)
Definition monitor_positions (last_price : string -> result Q)
    (self : PositionManager) : PositionManager * result unit :=
  monitor_items last_price (positions self) self.

(** The quantity of an order or position, counted positive on the BUY side
    and negative on the other. *)
Definition signed (side : string) (quantity : Q) : Q :=
  if String.eqb side "BUY" then quantity else - quantity.

(** The net quantity that the orders sent so far have bought of [symbol]. *)
Definition net_bought (symbol : string) (orders : list Order) : Q :=
  Qsum (fun o => if String.eqb (o_symbol o) symbol
                 then signed (o_side o) (o_quantity o) else 0)
       orders.

(** The quantity of [symbol] that the manager tracks. *)
Definition tracked (symbol : string) (self : PositionManager) : Q :=
  match dict_get symbol (positions self) with
  | Some position => signed (side position) (quantity position)
  | None => 0
  end.

(** A call made on the manager by its owner. *)
Inductive step : Type :=
| Execute (env : ExecEnv) (sig : LiveSignal)
| Monitor (last_price : string -> result Q).

Definition run_step {RS : RiskSizer} (s : step) (self : PositionManager)
    : PositionManager * result unit :=
  match s with
  | Execute env sig => execute env sig self
  | Monitor last_price => monitor_positions last_price self
  end.

(** The state after a sequence of calls, whatever each one raised. *)
Fixpoint run_steps {RS : RiskSizer} (steps : list step) (self : PositionManager)
    : PositionManager :=
  match steps with
  | [] => self
  | s :: steps' => run_steps steps' (fst (run_step s self))
  end.

End Live.

(* ------------------------------------------------------------------ *)
(** ** Trading loop of [TraderBase]                                   *)
(* ------------------------------------------------------------------ *)

Module Trader.

(** What the collaborators answer during one trading cycle. *)
Record CycleWorld : Type := mkCycleWorld {
  fetch_data : result unit;       (* data_service.get_market_data() *)
  analyze_data : result unit;     (* signal_generator.generate_signals(data) *)
  execute_orders : result unit;   (* position_manager.execute(signal) *)
  monitor_positions : result unit (* position_manager.get_open_positions() *)
}.

(** [TraderBase._execute_cycle] *)
Definition _execute_cycle (w : CycleWorld) : result unit :=
  _ <- fetch_data w ;;
  _ <- analyze_data w ;;
  _ <- execute_orders w ;;
  monitor_positions w.

(** The trader's [state] attribute, the errors it logged, the error
    notifications it sent and the number of cycles it started. *)
Record TraderBase : Type := mkTraderBase {
  state : string;
  error_log : list exn;
  notifications : list exn;
  cycles_started : nat
}.

(** The trader once [start] has set its state. *)
Definition started : TraderBase :=
  {| state := "active"; error_log := []; notifications := []; cycles_started := 0 |}.

(** The notification service handed to the trader: its [send] method, when
    it has one, answering the message built from the exception. *)
Record NotificationService : Type := mkNotificationService {
  send : option (exn -> result unit)
}.

(** The repository's [NotificationService], like the stand-ins built in
    [main.py] and [quicktest.py], defines [send_message] and
    [send_trade_notification], and no [send]. *)
Definition repository_notifications : NotificationService :=
  {| send := None |}.

(** [TraderBase._trading_loop], run over the cycles that the observed
    stretch of time leaves room for: the trader when the loop is left, and
    the exception, if any, that leaves the loop with it. *)
Fixpoint _trading_loop (notification_service : NotificationService)
    (cycles : list CycleWorld) (self : TraderBase) : TraderBase * result unit :=
  if String.eqb (state self) "active" then
    match cycles with
    | [] => (self, Ok tt)
    | w :: cycles' =>
        match _execute_cycle w with
        | Ok _ =>
            _trading_loop notification_service cycles'
              {| state := state self;
                 error_log := error_log self;
                 notifications := notifications self;
                 cycles_started := S (cycles_started self) |}
        | Raise e =>
            let logged :=
              {| state := state self;
                 error_log := error_log self ++ [e];
                 notifications := notifications self;
                 cycles_started := S (cycles_started self) |} in
            match send notification_service with
            | None => (logged, Raise (AttributeError "send"))
            | Some send_message =>
                match send_message e with
                | Raise e' => (logged, Raise e')
                | Ok _ =>
                    ({| state := "error";
                        error_log := error_log logged;
                        notifications := notifications logged ++ [e];
                        cycles_started := cycles_started logged |},
                     Ok tt)
                end
            end
        end
    end
  else (self, Ok tt).

Definition good_cycle : CycleWorld :=
  {| fetch_data := Ok tt; analyze_data := Ok tt;
     execute_orders := Ok tt; monitor_positions := Ok tt |}.

Definition set_state (new_state : string) (self : TraderBase) : TraderBase :=
  {| state := new_state;
     error_log := error_log self;
     notifications := notifications self;
     cycles_started := cycles_started self |}.

(** [TraderBase.start]: the trader, and whether a loop thread was spawned. *)
Definition start (self : TraderBase) : TraderBase * bool :=
  if String.eqb (state self) "active" then (self, false)
  else (set_state "active" self, true).

(** [TraderBase.stop] *)
Definition stop (self : TraderBase) : TraderBase :=
  if negb (String.eqb (state self) "active") then self
  else set_state "inactive" self.

(** [TraderBase.pause] *)
Definition pause (self : TraderBase) : TraderBase :=
  if negb (String.eqb (state self) "active") then self
  else set_state "paused" self.

(** [TraderBase.resume] *)
Definition resume (self : TraderBase) : TraderBase :=
  if negb (String.eqb (state self) "paused") then self
  else set_state "active" self.

End Trader.

(* ------------------------------------------------------------------ *)
(** ** Market-data preparation of the signal generator                *)
(* ------------------------------------------------------------------ *)

Module SignalGen.

(** A value stored under a key other than [price], [volume] and [close]. *)
Inductive value : Type :=
| VNum (q : Q)
| VBool (b : bool)
| VStr (s : string).

(** A price series: (timestamp in seconds, price), in index order. *)
Definition Series : Type := list (Z * Q).

(** The dict held for one symbol: the three keys the generator reads, each
    present or not, and every other key. *)
Record MarketEntry : Type := mkMarketEntry {
  price : option Q;
  volume : option Q;
  close : option Series;
  extra : dict value
}.

(** [market_data[symbol]]: a dict, or something that is not a dict. *)
Inductive entry : Type :=
| IsDict (d : MarketEntry)
| NotDict.

(** ['BTC' in symbol] *)
Definition contains_BTC (symbol : string) : bool :=
  match String.index 0 "BTC" symbol with
  | Some _ => true
  | None => false
  end.

(** [pd.date_range(start=now - 5h, end=now, periods=5)], in seconds. *)
Definition date_range_5h (now : Z) : list Z :=
  [(now - 18000)%Z; (now - 13500)%Z; (now - 9000)%Z; (now - 4500)%Z; now].

(** The five prices built around the current price. *)
Definition synthetic_prices (current_price : Q) : list Q :=
  [current_price * (97 # 100);
   current_price * (98 # 100);
   current_price * (99 # 100);
   current_price;
   current_price * (101 # 100)].

Definition synthetic_series (now : Z) (current_price : Q) : Series :=
  combine (date_range_5h now) (synthetic_prices current_price).

(** [SignalGenerator._create_default_market_data] *)
Definition _create_default_market_data (now : Z) (symbol : string) : MarketEntry :=
  let base_price := if contains_BTC symbol then 50000 else 1500 in
  {| price := Some base_price;
     volume := Some 100;
     close := Some (synthetic_series now base_price);
     extra := [] |}.

(** [SignalGenerator._prepare_market_data]; [now] is [datetime.now()]. *)
Definition _prepare_market_data (now : Z) (symbol : string) (market_data : dict entry)
    : MarketEntry :=
  match dict_get symbol market_data with
  | None => _create_default_market_data now symbol
  | Some e =>
      let data :=
        match e with
        | IsDict d => d
        | NotDict =>
            {| price := Some 50000; volume := Some 100; close := None; extra := [] |}
        end in
      let current_price :=
        match price data with
        | Some p => p
        | None => if contains_BTC symbol then 50000 else 1500
        end in
      let current_volume :=
        match volume data with
        | Some v => v
        | None => 100
        end in
      let close_series :=
        match close data with
        | Some s => s
        | None => synthetic_series now current_price
        end in
      {| price := Some current_price;
         volume := Some current_volume;
         close := Some close_series;
         extra := extra data |}
  end.



(** The prediction dict: the two keys [_prediction_to_signal] reads. *)
Record Prediction : Type := mkPrediction {
  p_confidence : option Q;
  p_direction : option Q
}.

(** [config['strategy']], when the config has that key. *)
Record StrategyConfig : Type := mkStrategyConfig {
  buy_threshold : option Q;
  sell_threshold : option Q
}.

Definition get_buy_threshold (config : option StrategyConfig) : Q :=
  match config with
  | Some c => match buy_threshold c with Some t => t | None => 6 # 10 end
  | None => 6 # 10
  end.

Definition get_sell_threshold (config : option StrategyConfig) : Q :=
  match config with
  | Some c => match sell_threshold c with Some t => t | None => 6 # 10 end
  | None => 6 # 10
  end.

(** [SignalGenerator._prediction_to_signal]: the action and the confidence. *)
Definition _prediction_to_signal (config : option StrategyConfig)
    (prediction : Prediction) : string * Q :=
  let confidence := match p_confidence prediction with Some c => c | None => 1 # 2 end in
  let direction := match p_direction prediction with Some d => d | None => 0 end in
  let buy_threshold := get_buy_threshold config in
  let sell_threshold := get_sell_threshold config in
  if negb (Qle_bool direction 0) && Qle_bool buy_threshold confidence
  then ("BUY"%string, confidence)
  else if negb (Qle_bool 0 direction) && Qle_bool sell_threshold confidence
  then ("SELL"%string, confidence)
  else ("HOLD"%string, confidence).

(** The dict built by [_create_signal_dict]. *)
Record SignalDict : Type := mkSignalDict {
  sd_symbol : string;
  sd_action : string;
  sd_confidence : Q;
  sd_timestamp : Z
}.

(** [SignalGenerator._create_signal_dict]; [now] is [pd.Timestamp.now()]. *)
Definition _create_signal_dict (now : Z) (symbol action : string) (confidence : Q)
    : SignalDict :=
  {| sd_symbol := symbol; sd_action := action;
     sd_confidence := confidence; sd_timestamp := now |}.

Section Generator.

(** What the indicator computations of [technical_features] produce. *)
Variable Indicators : Type.

(** The three dicts [_extract_features] can return; none is empty. *)
Inductive Features : Type :=
| BasicFeatures (f_price f_volume : Q)
| FullFeatures (f_price f_volume : Q) (f_indicators : Indicators)
| MinimalFeatures (f_price f_volume : Q).

(** [not features] *)
Definition features_empty (f : Features) : bool := false.

(** The generator: its strategy config, its models manager (answering
    [predict] with a dict, with something that is not a dict, or by raising)
    and its technical features (whose indicator computations, taken as a
    whole, produce a value or raise). *)
Record SignalGenerator : Type := mkSignalGenerator {
  config : option StrategyConfig;
  models_manager : option (string -> Features -> result (option Prediction));
  technical_features : option (Series -> result Indicators)
}.

(** [SignalGenerator._extract_features] on prepared data. *)
Definition _extract_features (self : SignalGenerator) (prepared : MarketEntry)
    : result Features :=
  match price prepared, volume prepared with
  | Some current_price, Some current_volume =>
      match technical_features self with
      | None => Ok (BasicFeatures current_price current_volume)
      | Some compute =>
          match close prepared with
          | None => Ok (MinimalFeatures current_price current_volume)
          | Some close_prices =>
              match compute close_prices with
              | Ok i => Ok (FullFeatures current_price current_volume i)
              | Raise _ => Ok (MinimalFeatures current_price current_volume)
              end
          end
      end
  | _, _ => Raise (KeyError "price")
  end.

(** The truth value of [market_data.get(symbol, {})]; [other_truth] is the
    truth value of an entry that is not a dict. *)
Definition entry_truthy (other_truth : bool) (e : option entry) : bool :=
  match e with
  | None => false
  | Some NotDict => other_truth
  | Some (IsDict d) =>
      match price d, volume d, close d, extra d with
      | None, None, None, [] => false
      | _, _, _, _ => true
      end
  end.

(** [SignalGenerator.generate_signal]; [now_data] is the [datetime.now()] of
    the preparation and [now] the [pd.Timestamp.now()] of the signal. *)
Definition generate_signal (self : SignalGenerator) (other_truth : bool)
    (now_data now : Z) (symbol : string) (market_data : dict entry) : SignalDict :=
  let hold := _create_signal_dict now symbol "HOLD" (1 # 2) in
  match market_data, models_manager self with
  | [], _ => hold
  | _ :: _, None => hold
  | _ :: _, Some predict =>
      if negb (entry_truthy other_truth (dict_get symbol market_data)) then hold
      else
        let prepared := _prepare_market_data now_data symbol market_data in
        match _extract_features self prepared with
        | Raise _ => hold
        | Ok features =>
            if features_empty features then hold
            else
              match predict symbol features with
              | Raise _ => hold
              | Ok None => hold
              | Ok (Some prediction) =>
                  let (action, confidence) :=
                    _prediction_to_signal (config self) prediction in
                  _create_signal_dict now symbol action confidence
              end
        end
  end.

End Generator.

Arguments BasicFeatures {Indicators} _ _.
Arguments FullFeatures {Indicators} _ _ _.
Arguments MinimalFeatures {Indicators} _ _.
Arguments mkSignalGenerator {Indicators} _ _ _.
Arguments config {Indicators} _.
Arguments models_manager {Indicators} _.
Arguments technical_features {Indicators} _.
Arguments _extract_features {Indicators} _ _.
Arguments generate_signal {Indicators} _ _ _ _ _ _.

End SignalGen.

(* ------------------------------------------------------------------ *)
(** ** Paper trading mode                                             *)
(* ------------------------------------------------------------------ *)

Module Paper.

Record PaperPosition : Type := mkPaperPosition {
  entry_time : Z;
  entry_price : Q;
  amount : Q;
  size : Q;
  direction : string
}.

(** An entry of [trade_history]; only SELL entries carry a [pnl_pct]. *)
Record HistoryEntry : Type := mkHistoryEntry {
  h_time : Z;
  h_symbol : string;
  h_action : string;
  h_price : Q;
  h_amount : Q;
  h_pnl_pct : option Q;
  h_balance_after : Q
}.

(** [config['paper_trading']], each key present or not. *)
Record PaperConfig : Type := mkPaperConfig {
  initial_balance : option Q;
  position_size_pct : option Q;
  fee_percentage : option Q
}.

Record PaperTradeMode : Type := mkPaperTradeMode {
  config : option PaperConfig;
  positions : dict PaperPosition;
  balance : Q;
  trade_history : list HistoryEntry
}.

Definition config_get (field : PaperConfig -> option Q) (default : Q)
    (config : option PaperConfig) : Q :=
  match config with
  | Some c => match field c with Some v => v | None => default end
  | None => default
  end.

(** [PaperTradeMode.__init__] *)
Definition init (config : option PaperConfig) : PaperTradeMode :=
  {| config := config;
     positions := [];
     balance := config_get initial_balance 10000 config;
     trade_history := [] |}.

(** The signal dict: the two keys [execute_trade] reads. *)
Record PaperSignal : Type := mkPaperSignal {
  symbol : string;
  action : string
}.

(** What happens inside the [try] of [execute_trade]; a raised exception is
    what the [except] clause will swallow.  [get_current_price] is the
    trader's price lookup, [now_entry] and [now_logged] the two readings of
    [datetime.now()]. *)
Definition try_execute_trade (get_current_price : string -> result Q)
    (now_entry now_logged : Z) (signal : PaperSignal) (self : PaperTradeMode)
    : result PaperTradeMode :=
  let symbol := symbol signal in
  let action := action signal in
  current_price <- get_current_price symbol ;;
  let position_size_pct := config_get position_size_pct 20 (config self) in
  let fee_percentage := config_get fee_percentage (1 # 10) (config self) in
  let position := dict_get symbol (positions self) in
  match position with
  | None =>
      if String.eqb action "BUY" then
        let position_size := balance self * position_size_pct / 100 in
        position_amount <- py_div position_size current_price ;;
        let commission := position_size * fee_percentage / 100 in
        if negb (Qle_bool (position_size + commission) (balance self)) then Ok self
        else
          let balance' := balance self - (position_size + commission) in
          Ok {| config := config self;
                positions :=
                  dict_set symbol
                    {| entry_time := now_entry;
                       entry_price := current_price;
                       amount := position_amount;
                       size := position_size;
                       direction := "long" |}
                    (positions self);
                balance := balance';
                trade_history :=
                  trade_history self
                  ++ [ {| h_time := now_logged; h_symbol := symbol;
                          h_action := "BUY"; h_price := current_price;
                          h_amount := position_amount; h_pnl_pct := None;
                          h_balance_after := balance' |} ] |}
      else Ok self
  | Some position =>
      if String.eqb action "BUY" then Ok self
      else if String.eqb action "SELL" && String.eqb (direction position) "long" then
        let current_value := amount position * current_price in
        r <- py_div current_price (entry_price position) ;;
        let pnl := (r - 1) * 100 in
        let commission := current_value * fee_percentage / 100 in
        let balance' := balance self + (current_value - commission) in
        Ok {| config := config self;
              positions := snd (dict_pop symbol (positions self));
              balance := balance';
              trade_history :=
                trade_history self
                ++ [ {| h_time := now_logged; h_symbol := symbol;
                        h_action := "SELL"; h_price := current_price;
                        h_amount := amount position; h_pnl_pct := Some pnl;
                        h_balance_after := balance' |} ] |}
      else Ok self
  end.

(** [PaperTradeMode.execute_trade] *)
Definition execute_trade (get_current_price : string -> result Q)
    (now_entry now_logged : Z) (signal : PaperSignal) (self : PaperTradeMode)
    : PaperTradeMode :=
  if String.eqb (action signal) "HOLD" then self
  else
    match try_execute_trade get_current_price now_entry now_logged signal self with
    | Ok self' => self'
    | Raise _ => self
    end.

(** [PaperTradeMode.calculate_equity] *)
Definition calculate_equity (self : PaperTradeMode) : Q :=
  fold_left
    (fun equity kv =>
       let position := snd kv in
       let current_price := entry_price position in
       let position_value := amount position * current_price in
       equity + position_value)
    (positions self) (balance self).

(** One call of [execute_trade], with what the clock and the trader answer. *)
Record Call : Type := mkCall {
  c_prices : string -> result Q;
  c_now_entry : Z;
  c_now_logged : Z;
  c_signal : PaperSignal
}.

Definition run_call (c : Call) (self : PaperTradeMode) : PaperTradeMode :=
  execute_trade (c_prices c) (c_now_entry c) (c_now_logged c) (c_signal c) self.

Definition run_calls (calls : list Call) (self : PaperTradeMode) : PaperTradeMode :=
  fold_left (fun st c => run_call c st) calls self.

(** The trader never quotes a negative price in this call. *)
Definition quotes_nonnegative (c : Call) : Prop :=
  forall sym p, c_prices c sym = Ok p -> 0 <= p.

(** The parameters are percentages a configuration would hold. *)
Definition sane_config (config : option PaperConfig) : Prop :=
  0 <= config_get position_size_pct 20 config /\
  0 <= config_get fee_percentage (1 # 10) config <= 100.

(** Every open position holds a non-negative amount. *)
Definition amounts_nonnegative (d : dict PaperPosition) : Prop :=
  Forall (fun kv => 0 <= amount (snd kv)) d.

End Paper.

(* ------------------------------------------------------------------ *)
(** ** Concrete runs used in the statements below                     *)
(* ------------------------------------------------------------------ *)

Module Scenario.

Import Backtest.

(** [BUY@100, HOLD, HOLD, SELL@110] with the two HOLD bars at [h1], [h2]. *)
Definition e2e_bars (h1 h2 : Q) : list Bar :=
  [ mkBar 0 100 (mkSignal "BUY");
    mkBar 1 h1 (mkSignal "HOLD");
    mkBar 2 h2 (mkSignal "HOLD");
    mkBar 3 110 (mkSignal "SELL") ].

(** [position_size_pct] 20 and [fee_pct] 0.1; stop and take levels default. *)
Definition e2e_params : dict Q :=
  [ ("position_size_pct"%string, 20); ("fee_pct"%string, 1 # 10) ].

(** The replay of the end-to-end scenario from a capital of 10,000. *)
Definition e2e_run (h1 h2 : Q) : result LoopState :=
  backtest_loop (read_params e2e_params) (filter_dates 0 3 (e2e_bars h1 h2))
    (initial_state 10000).

(** The market data of [tests/test_backtesting.py]: 100 daily bars, price
    [100 + 0.5 i], a BUY on every tenth bar. *)
Definition test_bar (i : nat) : Bar :=
  mkBar (Z.of_nat i) (100 + inject_Z (Z.of_nat i) * (1 # 2))
        (mkSignal (if (i mod 10 =? 0)%nat then "BUY" else "HOLD")).

Definition test_market_data : list Bar := map test_bar (seq 0 100).

Definition test_strategy_params : dict Q :=
  [ ("stop_loss_pct"%string, 2); ("take_profit_pct"%string, 4);
    ("fee_pct"%string, 1 # 10); ("position_size_pct"%string, 10) ].

(** Three bars one second apart: a BUY, a take-profit exit, a BUY again. *)
Definition reentry_bars : list Bar :=
  [ mkBar 0 100 (mkSignal "BUY");
    mkBar 1 110 (mkSignal "HOLD");
    mkBar 2 110 (mkSignal "BUY") ].

(** A ledger holding one break-even trade. *)
Definition flat_trade : Trade :=
  {| t_entry_time := 0; t_exit_time := 1; t_entry_price := 100;
     t_exit_price := 100; t_amount := 10; t_direction := "long";
     pnl_pct := 0; reason := "stop_loss" |}.

(** A risk manager that does size by volatility:
    [account_balance * risk_per_trade / volatility] on a balance of 10,000. *)
Definition volatility_sizer : Live.RiskSizer :=
  {| Live.calculate_position_size_kw := fun risk_per_trade volatility _ =>
       py_div (10000 * risk_per_trade) volatility |}.

(** A BUY signal for the live manager. *)
Definition live_buy : Live.LiveSignal :=
  {| Live.signal := 1; Live.s_stop_loss := 49000; Live.s_take_profit := 52000 |}.

(** The first call: no candles, the order is filled at 50,000. *)
Definition first_call : Live.ExecEnv :=
  {| Live.clock_can_trade := 1000; Live.ohlcv_1h := [];
     Live.order_fills := Some [50000]; Live.clock_opened := 1000 |}.

(** The second call, thirty seconds later. *)
Definition second_call : Live.ExecEnv :=
  {| Live.clock_can_trade := 1030; Live.ohlcv_1h := [];
     Live.order_fills := Some [50010]; Live.clock_opened := 1030 |}.

(** A third call, well after the re-entry interval. *)
Definition third_call : Live.ExecEnv :=
  {| Live.clock_can_trade := 2000; Live.ohlcv_1h := [];
     Live.order_fills := Some [51000]; Live.clock_opened := 2000 |}.

(** A notification service whose [send] delivers every message. *)
Definition delivering_notifications : Trader.NotificationService :=
  {| Trader.send := Some (fun _ => Ok tt) |}.

(** A stop level on the entry price, and two bars at the same price. *)
Definition flat_params : dict Q := [ ("stop_loss_pct"%string, 0) ].

Definition flat_bars : list Backtest.Bar :=
  [ Backtest.mkBar 0 100 (Backtest.mkSignal "BUY");
    Backtest.mkBar 1 100 (Backtest.mkSignal "HOLD") ].

(** A BUY at 100 stopped out at 90. *)
Definition stopped_bars : list Backtest.Bar :=
  [ Backtest.mkBar 0 100 (Backtest.mkSignal "BUY");
    Backtest.mkBar 1 90 (Backtest.mkSignal "HOLD") ].

(** A cycle in which monitoring raises. *)
Definition failing_cycle : Trader.CycleWorld :=
  {| Trader.fetch_data := Ok tt; Trader.analyze_data := Ok tt;
     Trader.execute_orders := Ok tt;
     Trader.monitor_positions := Raise (AttributeError "get_open_positions") |}.

(** Market data with a price and a volume but no history. *)
Definition snapshot_without_history : dict SignalGen.entry :=
  [ ("BTC/USDT"%string,
     SignalGen.IsDict
       {| SignalGen.price := Some 100; SignalGen.volume := Some 1;
          SignalGen.close := None; SignalGen.extra := [] |}) ].

(** The same snapshot, arriving with a real history of the same five points. *)
Definition snapshot_with_history : dict SignalGen.entry :=
  [ ("BTC/USDT"%string,
     SignalGen.IsDict
       {| SignalGen.price := Some 100; SignalGen.volume := Some 1;
          SignalGen.close := Some (SignalGen.synthetic_series 0 100);
          SignalGen.extra := [] |}) ].

(** A models manager that predicts a rise with confidence 0.8. *)
Definition bullish_predictor (symbol : string) (features : SignalGen.Features unit)
    : result (option SignalGen.Prediction) :=
  Ok (Some {| SignalGen.p_confidence := Some (8 # 10);
              SignalGen.p_direction := Some 1 |}).

(** A models manager whose prediction fails. *)
Definition failing_predictor (symbol : string) (features : SignalGen.Features unit)
    : result (option SignalGen.Prediction) :=
  Raise (TypeError "model not loaded").

(** A generator with default thresholds and no technical features. *)
Definition bullish_generator : SignalGen.SignalGenerator unit :=
  SignalGen.mkSignalGenerator None (Some bullish_predictor) None.

Definition failing_generator : SignalGen.SignalGenerator unit :=
  SignalGen.mkSignalGenerator None (Some failing_predictor) None.

(** A trader quoting the same price for every symbol. *)
Definition quote (p : Q) : string -> result Q := fun _ => Ok p.

(** A paper BUY of BTC/USDT at 100 followed by a SELL at 110. *)
Definition paper_calls : list Paper.Call :=
  [ Paper.mkCall (quote 100) 0 0 (Paper.mkPaperSignal "BTC/USDT" "BUY");
    Paper.mkCall (quote 110) 5 5 (Paper.mkPaperSignal "BTC/USDT" "SELL") ].

End Scenario.

(* ================================================================== *)
(** * Properties                                                      *)
(* ================================================================== *)

(** ** Rational comparisons and Python division *)

Lemma Qle_bool_false (a b : Q) : b < a -> Qle_bool a b = false.
Proof.
  intros H. destruct (Qle_bool a b) eqn:E; [|reflexivity].
  apply Qle_bool_iff in E. lra.
Qed.

Lemma Qle_bool_true (a b : Q) : a <= b -> Qle_bool a b = true.
Proof. intros H. now apply Qle_bool_iff. Qed.

Lemma Qle_bool_false_inv (a b : Q) : Qle_bool a b = false -> b < a.
Proof.
  intros E. destruct (Qlt_le_dec b a) as [H|H]; [exact H|].
  apply Qle_bool_iff in H. congruence.
Qed.

Lemma py_div_ok (a b : Q) : ~ b == 0 -> py_div a b = Ok (a / b).
Proof.
  intros H. unfold py_div. destruct (Qeq_bool b 0) eqn:E; [|reflexivity].
  apply Qeq_bool_iff in E. contradiction.
Qed.

Lemma py_div_inv (a b q : Q) : py_div a b = Ok q -> ~ b == 0 /\ q = a / b.
Proof.
  unfold py_div. destruct (Qeq_bool b 0) eqn:E; [discriminate|].
  intros [= <-]. split; [|reflexivity]. now apply Qeq_bool_neq.
Qed.

Lemma bind_inv {A B : Type} (m : result A) (k : A -> result B) (b : B) :
  bind m k = Ok b -> exists a, m = Ok a /\ k a = Ok b.
Proof. destruct m as [a|e]; cbn; [eauto | discriminate]. Qed.

Lemma Qsum_app {A : Type} (f : A -> Q) (l1 l2 : list A) :
  Qsum f (l1 ++ l2) == Qsum f l1 + Qsum f l2.
Proof.
  induction l1 as [|x l1 IH]; cbn [Qsum app]; [ring | rewrite IH; ring].
Qed.

Lemma py_sum_from (l : list Q) (acc : Q) :
  fold_left Qplus l acc == acc + Qsum (fun q => q) l.
Proof.
  revert acc. induction l as [|x l IH]; intros acc; cbn [fold_left Qsum].
  - ring.
  - rewrite IH. ring.
Qed.

Lemma py_sum_Qsum (l : list Q) : Backtest.py_sum l == Qsum (fun q => q) l.
Proof. unfold Backtest.py_sum. rewrite py_sum_from. ring. Qed.

(** ** The replay engine *)

Section BacktestFacts.

Import Backtest Scenario.

(** What one call of [_process_signal] can do. *)
Lemma process_signal_inv (sig : Signal) (current_price : Q) (current_time : Z)
    (bal : Q) (pos : option Position) (sl tp fee pct : Q)
    (bal' : Q) (pos' : option Position) (new : list Trade) :
  _process_signal sig current_price current_time bal pos sl tp fee pct
    = Ok (bal', pos', new) ->
  match pos with
  | None =>
      new = [] /\
      ((action sig = "BUY"%string /\ ~ current_price == 0 /\
        bal' = bal - (bal * pct / 100) * fee / 100 /\
        exists q, pos' = Some q /\ direction q = "long"%string /\
                  entry_price q = current_price /\ entry_time q = current_time)
       \/ (action sig <> "BUY"%string /\ pos' = None /\ bal' = bal))
  | Some p =>
      (pos' = Some p /\ new = [] /\ bal' = bal)
      \/ (pos' = None /\ direction p = "long"%string /\
          (current_price <= stop_loss p \/ take_profit p <= current_price) /\
          bal' = bal + (amount p * current_price
                        - (amount p * current_price) * fee / 100) /\
          exists t, new = [t] /\ t_direction t = "long"%string /\
                    (reason t = "stop_loss"%string \/ reason t = "take_profit"%string) /\
                    t_amount t = amount p /\ t_entry_price t = entry_price p /\
                    t_exit_price t = current_price)
  end.
Proof.
  unfold _process_signal. destruct pos as [p|].
  - destruct (String.eqb (direction p) "long") eqn:Hdir;
      [apply String.eqb_eq in Hdir | intros [= <- <- <-]; left; auto].
    destruct (Qle_bool current_price (stop_loss p)) eqn:Hsl.
    + intros H. apply bind_inv in H as (r & _ & [= <- <- <-]).
      right. apply Qle_bool_iff in Hsl. repeat split; auto.
      eexists. repeat split; cbn; auto.
    + destruct (Qle_bool (take_profit p) current_price) eqn:Htp.
      * intros H. apply bind_inv in H as (r & _ & [= <- <- <-]).
        right. apply Qle_bool_iff in Htp. repeat split; auto.
        eexists. repeat split; cbn; auto.
      * intros [= <- <- <-]. left; auto.
  - destruct (String.eqb (action sig) "BUY") eqn:Hact.
    + apply String.eqb_eq in Hact.
      intros H. apply bind_inv in H as (r & Hr & [= <- <- <-]).
      apply py_div_inv in Hr as [Hnz _].
      split; [reflexivity|]. left. repeat split; auto.
      eexists. repeat split; reflexivity.
    + apply String.eqb_neq in Hact.
      intros [= <- <- <-]. split; [reflexivity|]. right. auto.
Qed.

Lemma proceeds_split (l : list Trade) :
  Qsum proceeds l == Qsum realized_pnl_notional l + Qsum cost_basis l.
Proof.
  induction l as [|t l IH]; cbn [Qsum]; [ring|].
  rewrite IH. unfold proceeds, realized_pnl_notional, cost_basis. ring.
Qed.

(** One bar: the balance moves by the commission and by the full proceeds
    of the trade closed on it. *)
Lemma loop_body_accounting (p : Params) (row : Bar) (st st' : LoopState) :
  loop_body p row st = Ok st' ->
  exists new,
    trades st' = trades st ++ new /\
    balance st' ==
      balance st
      - commission_charged (signal row) (price row) (balance st) (position st)
          (fee_percentage p) (position_size_pct p)
      + Qsum proceeds new.
Proof.
  unfold loop_body. intros H.
  apply bind_inv in H as ([[b' pos'] new] & Hstep & [= <-]).
  exists new. split; [reflexivity|]. cbn [balance].
  pose proof (process_signal_inv _ _ _ _ _ _ _ _ _ _ _ _ Hstep) as Hinv.
  unfold commission_charged.
  destruct (position st) as [q|].
  - destruct Hinv as [(-> & -> & ->) | (-> & Hdir & Htrig & -> & t & -> & _ & _ & Ha & _ & Hx)].
    + unfold _process_signal in Hstep.
      destruct (String.eqb (direction q) "long"); [|cbn [Qsum]; ring].
      destruct (Qle_bool (price row) (stop_loss q));
        [apply bind_inv in Hstep as (? & _ & [=])|].
      destruct (Qle_bool (take_profit q) (price row));
        [apply bind_inv in Hstep as (? & _ & [=])|].
      cbn [orb Qsum]. ring.
    + rewrite Hdir. cbn [String.eqb Ascii.eqb Bool.eqb].
      assert (Hor : Qle_bool (price row) (stop_loss q)
                    || Qle_bool (take_profit q) (price row) = true).
      { apply orb_true_iff. destruct Htrig as [H|H]; [left|right];
          now apply Qle_bool_iff. }
      rewrite Hor. cbn [Qsum]. unfold proceeds. rewrite Ha, Hx. ring.
  - destruct Hinv as [-> [(Hact & _ & -> & _) | (Hact & _ & ->)]].
    + rewrite Hact. cbn [String.eqb Ascii.eqb Bool.eqb Qsum]. ring.
    + apply String.eqb_neq in Hact. rewrite Hact. cbn [Qsum]. ring.
Qed.

Lemma backtest_loop_accounting (p : Params) (rows : list Bar) :
  forall st st', backtest_loop p rows st = Ok st' ->
  exists new,
    trades st' = trades st ++ new /\
    balance st' == balance st - commissions p rows st + Qsum proceeds new.
Proof.
  induction rows as [|row rows IH]; intros st st' H; cbn [backtest_loop commissions] in *.
  - injection H as <-. exists []. split; [now rewrite app_nil_r | cbn [Qsum]; ring].
  - apply bind_inv in H as (st1 & Hbody & Hrest).
    rewrite Hbody.
    destruct (loop_body_accounting _ _ _ _ Hbody) as (new1 & Ht1 & Hb1).
    destruct (IH _ _ Hrest) as (new2 & Ht2 & Hb2).
    exists (new1 ++ new2). split.
    + rewrite Ht2, Ht1. now rewrite app_assoc.
    + rewrite Hb2, Hb1, Qsum_app. ring.
Qed.

(** What the final balance of a replay is made of: the claimed
    reconciliation, plus the cost basis of every closed trade, which the
    entry branch never debits. *)
Lemma backtest_balance_decomposition (p : Params) (rows : list Bar)
    (initial_capital : Q) (st : LoopState) :
  backtest_loop p rows (initial_state initial_capital) = Ok st ->
  balance st ==
    initial_capital + Qsum realized_pnl_notional (trades st)
    - commissions p rows (initial_state initial_capital)
    + Qsum cost_basis (trades st).
Proof.
  intros H. destruct (backtest_loop_accounting _ _ _ _ H) as (new & Ht & Hb).
  cbn [initial_state trades balance app] in Ht, Hb.
  rewrite Hb, Ht, proceeds_split. ring.
Qed.

Lemma loop_body_hold (p : Params) (row : Bar) (st : LoopState) (pos : Position) :
  position st = Some pos -> direction pos = "long"%string ->
  stop_loss pos < price row -> price row < take_profit pos ->
  loop_body p row st =
  Ok {| balance := balance st; position := Some pos; trades := trades st ++ [];
        equity_curve := equity_curve st ++ [mkEquityPoint (timestamp row) (balance st)] |}.
Proof.
  intros Hpos Hdir Hsl Htp. unfold loop_body, _process_signal.
  rewrite Hpos, Hdir. cbn [String.eqb Ascii.eqb Bool.eqb].
  rewrite (Qle_bool_false _ _ Hsl), (Qle_bool_false _ _ Htp). reflexivity.
Qed.

(** The HOLD bars of the end-to-end scenario leave no trace of their price
    as long as it stays between the stop (98) and the take level (104). *)
Lemma e2e_run_hold_prices (h1 h2 : Q) :
  98 < h1 < 104 -> 98 < h2 < 104 -> e2e_run h1 h2 = e2e_run 100 100.
Proof.
  intros H1 H2. unfold e2e_run, e2e_bars.
  change (filter_dates 0 3 ?l) with l.
  cbn [backtest_loop].
  set (s0 := loop_body _ (mkBar 0 _ _) _).
  let v := eval vm_compute in s0 in change s0 with v. subst s0. cbn [bind].
  assert (Hc : 98 < 100 < 104) by (split; reflexivity).
  repeat (erewrite loop_body_hold;
    [ cbn [bind balance trades equity_curve timestamp]
    | reflexivity | reflexivity
    | cbn [stop_loss price]; lra | cbn [take_profit price]; lra ]).
  reflexivity.
Qed.

Lemma loop_body_total (p : Params) (row : Bar) (st : LoopState) :
  ~ price row == 0 -> entry_nonzero st ->
  exists st', loop_body p row st = Ok st' /\ entry_nonzero st'.
Proof.
  intros Hp Hst. unfold loop_body, _process_signal, entry_nonzero in *.
  destruct (position st) as [q|].
  - cbn beta iota in Hst.
    destruct (String.eqb (direction q) "long");
      [|cbn [bind position]; eexists; split; [reflexivity | exact Hst]].
    destruct (Qle_bool (price row) (stop_loss q)).
    { rewrite (py_div_ok (price row) _ Hst). cbn [bind position].
      eexists; split; [reflexivity | exact I]. }
    destruct (Qle_bool (take_profit q) (price row)).
    { rewrite (py_div_ok (price row) _ Hst). cbn [bind position].
      eexists; split; [reflexivity | exact I]. }
    cbn [bind position]. eexists; split; [reflexivity | exact Hst].
  - destruct (String.eqb (action (signal row)) "BUY");
      [|cbn [bind position]; eexists; split; [reflexivity | exact I]].
    rewrite (py_div_ok (balance st * position_size_pct p / 100) _ Hp).
    cbn [bind position]. eexists; split; [reflexivity | exact Hp].
Qed.

(** A replay over bars with non-zero prices runs to the end. *)
Lemma backtest_loop_total (p : Params) (rows : list Bar) :
  Forall (fun row => ~ price row == 0) rows ->
  forall st, entry_nonzero st -> exists st', backtest_loop p rows st = Ok st'.
Proof.
  induction 1 as [|row rows Hrow _ IH]; intros st Hst; cbn [backtest_loop].
  - eauto.
  - destruct (loop_body_total p row st Hrow Hst) as (st1 & -> & Hst1).
    cbn [bind]. now apply IH.
Qed.

(** One bar keeps the ledger made of long trades closed by a price trigger. *)
Lemma loop_body_long_exit (p : Params) (row : Bar) (st st' : LoopState) :
  loop_body p row st = Ok st' ->
  Forall long_exit (trades st) -> Forall long_exit (trades st').
Proof.
  unfold loop_body. intros H Hall.
  apply bind_inv in H as ([[b' pos'] new] & Hstep & [= <-]). cbn [trades].
  apply Forall_app. split; [exact Hall|].
  apply process_signal_inv in Hstep.
  destruct (position st) as [q|].
  - destruct Hstep as [(_ & -> & _) | (_ & _ & _ & _ & t & -> & Hd & Hr & _)].
    + constructor.
    + constructor; [split; assumption | constructor].
  - destruct Hstep as [-> _]. constructor.
Qed.

Lemma backtest_loop_long_exit (p : Params) (rows : list Bar) :
  forall st st', backtest_loop p rows st = Ok st' ->
  Forall long_exit (trades st) -> Forall long_exit (trades st').
Proof.
  induction rows as [|row rows IH]; intros st st' H Hall; cbn [backtest_loop] in H.
  - now injection H as <-.
  - apply bind_inv in H as (st1 & Hbody & Hrest).
    eapply IH; [exact Hrest|]. eapply loop_body_long_exit; eauto.
Qed.

(** With a position open, the bar's signal is not looked at. *)
Lemma process_signal_open_ignores_signal (sig sig' : Signal) (current_price : Q)
    (current_time : Z) (bal : Q) (pos : Position) (sl tp fee pct : Q) :
  _process_signal sig current_price current_time bal (Some pos) sl tp fee pct
  = _process_signal sig' current_price current_time bal (Some pos) sl tp fee pct.
Proof. reflexivity. Qed.

(** Any action other than BUY is processed like any other such action. *)
Lemma process_signal_not_buy (sig sig' : Signal) (current_price : Q)
    (current_time : Z) (bal : Q) (pos : option Position) (sl tp fee pct : Q) :
  action sig <> "BUY"%string -> action sig' <> "BUY"%string ->
  _process_signal sig current_price current_time bal pos sl tp fee pct
  = _process_signal sig' current_price current_time bal pos sl tp fee pct.
Proof.
  intros H H'. destruct pos as [q|]; [reflexivity|].
  unfold _process_signal.
  apply String.eqb_neq in H, H'. now rewrite H, H'.
Qed.

Lemma loop_body_equity (p : Params) (row : Bar) (st st' : LoopState) :
  loop_body p row st = Ok st' ->
  equity_curve st' = equity_curve st ++ [mkEquityPoint (timestamp row) (balance st)].
Proof.
  unfold loop_body. intros H.
  apply bind_inv in H as ([[b' pos'] new] & _ & [= <-]). reflexivity.
Qed.

(** A replay over at least one bar leaves a non-empty equity curve. *)
Lemma backtest_loop_equity_nonempty (p : Params) (rows : list Bar) :
  forall st st', backtest_loop p rows st = Ok st' ->
  rows <> [] \/ equity_curve st <> [] -> equity_curve st' <> [].
Proof.
  induction rows as [|row rows IH]; intros st st' H Hne; cbn [backtest_loop] in H.
  - injection H as <-. destruct Hne as [Hne | Hne]; [now contradiction Hne | exact Hne].
  - apply bind_inv in H as (st1 & Hbody & Hrest).
    apply (IH _ _ Hrest). right.
    rewrite (loop_body_equity _ _ _ _ Hbody).
    destruct (equity_curve st); discriminate.
Qed.

End BacktestFacts.

Section BacktestClaims.

Import Backtest Scenario.

(** C1 (balance reconciliation), evaluated on the end-to-end scenario
    [BUY@100, HOLD@100, HOLD@100, SELL@110] with capital 10,000, 20%
    position size and a 0.1% fee.  The replay ends with a balance of
    12,195.8, while the initial capital plus the realized PnL of the ledger
    minus all commissions is 10,195.8: the two differ by the 2,000 the
    position was opened with. *)
Theorem reconciliation_fails_on_e2e_run :
  exists st,
    e2e_run 100 100 = Ok st /\
    balance st == 121958 # 10 /\
    10000 + Qsum realized_pnl_notional (trades st)
      - commissions (read_params e2e_params) (e2e_bars 100 100) (initial_state 10000)
      == 101958 # 10 /\
    ~ balance st ==
        10000 + Qsum realized_pnl_notional (trades st)
        - commissions (read_params e2e_params) (e2e_bars 100 100) (initial_state 10000).
Proof.
  eexists. split; [vm_compute; reflexivity|].
  split; [vm_compute; reflexivity|].
  split; [vm_compute; reflexivity|].
  vm_compute. discriminate.
Qed.

(** C3 (end-to-end scenario).  With the HOLD bars anywhere between the stop
    level 98 and the take level 104, the run yields exactly one trade, entered
    at 100 and closed at 110 by the take-profit trigger with a pnl of 10%;
    the final balance is 12,195.8, not the 10,196 of the scenario. *)
Theorem e2e_scenario_outcome (h1 h2 : Q) :
  98 < h1 < 104 -> 98 < h2 < 104 ->
  exists st t,
    e2e_run h1 h2 = Ok st /\
    trades st = [t] /\
    position st = None /\
    t_entry_price t == 100 /\
    t_exit_price t == 110 /\
    pnl_pct t == 10 /\
    reason t = "take_profit"%string /\
    balance st == 121958 # 10 /\
    10196 + 1999 < balance st.
Proof.
  intros H1 H2. rewrite (e2e_run_hold_prices h1 h2 H1 H2).
  eexists. eexists. split; [vm_compute; reflexivity|].
  cbn [trades position]. repeat split; reflexivity.
Qed.

Lemma e2e_scenario_outcome_witness :
  (98 < 101 < 104) /\
  exists st t,
    e2e_run 101 (205 # 2) = Ok st /\
    trades st = [t] /\
    position st = None /\
    t_entry_price t == 100 /\
    t_exit_price t == 110 /\
    pnl_pct t == 10 /\
    reason t = "take_profit"%string /\
    balance st == 121958 # 10 /\
    10196 + 1999 < balance st.
Proof.
  split; [split; reflexivity|].
  apply (e2e_scenario_outcome 101 (205 # 2)); split; reflexivity.
Defined.

(** [run_backtest] gets as far as the report whenever no division fails. *)
Lemma run_backtest_reaches_report {Report : Type} (self : BacktestingClass Report)
    (symbol : string) (start_date end_date : Z) (initial_capital : Q)
    (strategy_params : dict Q) (market_data : list Bar) (st : LoopState) (m : Metrics) :
  backtest_loop (read_params strategy_params)
    (filter_dates start_date end_date market_data) (initial_state initial_capital) = Ok st ->
  _calculate_performance_metrics initial_capital (balance st) (trades st)
    (equity_curve st) = Ok m ->
  run_backtest self symbol start_date end_date initial_capital strategy_params market_data
  = (generate <- lookup "_generate_report" (_generate_report self) ;;
     generate symbol start_date end_date initial_capital m (trades st) (equity_curve st)).
Proof.
  intros Hloop Hm. unfold run_backtest. rewrite Hloop. cbn [bind]. rewrite Hm. reflexivity.
Qed.

(** The metrics are computed for every ledger when the initial capital is
    not zero and the equity curve is not empty. *)
Lemma calculate_performance_metrics_total (initial_capital final_balance : Q)
    (trades : list Trade) (equity_curve : list EquityPoint) :
  ~ initial_capital == 0 ->
  trades = [] \/ equity_curve <> [] ->
  exists m,
    _calculate_performance_metrics initial_capital final_balance trades equity_curve
    = Ok m.
Proof.
  intros Hcap Hcurve. unfold _calculate_performance_metrics.
  destruct trades as [|t ts]; [eauto|].
  destruct Hcurve as [Hcurve | Hcurve]; [discriminate|].
  rewrite (py_div_ok (final_balance - initial_capital) _ Hcap). cbn [bind].
  unfold len_ratio. rewrite py_div_ok by (cbn; intro; discriminate). cbn [bind].
  destruct equity_curve as [|pt curve]; [now contradiction Hcurve|].
  destruct (negb (Qle_bool _ 0)) eqn:Hloss.
  - rewrite py_div_ok; [cbn [bind]; eauto|].
    apply negb_true_iff, Qle_bool_false_inv in Hloss. intros E. rewrite E in Hloss.
    now apply Qlt_irrefl in Hloss.
  - cbn [bind]. eauto.
Qed.

(** The metrics of a replay that ran to the end are computed when the
    initial capital is not zero: a ledger with a trade comes with an equity
    curve with a point. *)
Lemma replay_metrics_total (p : Params) (rows : list Bar) (initial_capital : Q)
    (st : LoopState) :
  ~ initial_capital == 0 ->
  backtest_loop p rows (initial_state initial_capital) = Ok st ->
  exists m,
    _calculate_performance_metrics initial_capital (balance st) (trades st)
      (equity_curve st) = Ok m.
Proof.
  intros Hcap Hloop. apply calculate_performance_metrics_total; [exact Hcap|].
  destruct rows as [|row rows].
  - cbn in Hloop. injection Hloop as <-. left. reflexivity.
  - right. apply (backtest_loop_equity_nonempty _ _ _ _ Hloop). left. discriminate.
Qed.

(** The prices of the test's market data are never zero. *)
Lemma test_market_data_prices :
  Forall (fun row => ~ price row == 0) (filter_dates 0 99 test_market_data).
Proof.
  unfold filter_dates, test_market_data.
  apply Forall_forall. intros row Hin.
  pose proof (proj1 (proj1 (filter_In _ row (map test_bar (seq 0 100))) Hin)) as Hrow.
  apply in_map_iff in Hrow. destruct Hrow as (i & <- & _).
  cbn [price test_bar].
  assert (Hi : 0 <= inject_Z (Z.of_nat i)).
  { unfold Qle, inject_Z. cbn [Qnum Qden]. lia. }
  intros E. lra.
Qed.

(** C2 (the run returns its result).  On the class as written no call of
    [run_backtest] returns: each one raises, and on the market data of the
    repository's own test the exception is the failed lookup of
    [_generate_report]. *)
Theorem run_backtest_always_raises :
  (forall (Report : Type) (symbol : string) (start_date end_date : Z)
          (initial_capital : Q) (strategy_params : dict Q) (market_data : list Bar),
      exists e,
        run_backtest (Backtesting Report) symbol start_date end_date
          initial_capital strategy_params market_data = Raise e) /\
  (forall Report : Type,
      run_backtest (Backtesting Report) "BTC/USDT" 0 99 10000
        test_strategy_params test_market_data
      = Raise (AttributeError "_generate_report")).
Proof.
  split.
  - intros. unfold run_backtest.
    destruct (backtest_loop _ _ _) as [st|e]; cbn [bind]; [|eauto].
    destruct (_calculate_performance_metrics _ _ _ _) as [m|e]; cbn [bind]; [|eauto].
    cbn. eauto.
  - intros Report.
    destruct (backtest_loop_total (read_params test_strategy_params)
                (filter_dates 0 99 test_market_data) test_market_data_prices
                (initial_state 10000) I) as (st & Hst).
    destruct (replay_metrics_total (read_params test_strategy_params)
                (filter_dates 0 99 test_market_data) 10000 st) as (m & Hm);
      [intro; discriminate | exact Hst |].
    rewrite (run_backtest_reaches_report (Backtesting Report) "BTC/USDT" 0 99
               10000 test_strategy_params test_market_data st m Hst Hm).
    reflexivity.
Qed.

(** A class that does define [_generate_report] returns its report on every
    market data with non-zero prices, from a non-zero capital. *)
Lemma run_backtest_with_report {Report : Type}
    (generate : string -> Z -> Z -> Q -> Metrics -> list Trade -> list EquityPoint
                -> Report)
    (symbol : string) (start_date end_date : Z) (initial_capital : Q)
    (strategy_params : dict Q) (market_data : list Bar) :
  ~ initial_capital == 0 ->
  Forall (fun row => ~ price row == 0) market_data ->
  exists report,
    run_backtest
      {| _generate_report := Some (fun s a b c m t e => Ok (generate s a b c m t e)) |}
      symbol start_date end_date initial_capital strategy_params market_data
    = Ok report.
Proof.
  intros Hcap Hrows. unfold run_backtest.
  destruct (backtest_loop_total (read_params strategy_params)
              (filter_dates start_date end_date market_data)) with
    (st := initial_state initial_capital) as (st & Hst).
  - unfold filter_dates. apply Forall_forall. intros row Hin.
    apply filter_In in Hin as [Hin _].
    now apply (proj1 (Forall_forall _ _) Hrows).
  - exact I.
  - rewrite Hst. cbn [bind].
    destruct (replay_metrics_total _ _ _ _ Hcap Hst) as (m & ->).
    cbn. eauto.
Qed.

(** C10 (long only, exits by price trigger only).  At any bar of a replay: a
    position held after the bar is either the one held before it or a long
    one opened from flat by a BUY; a SELL bar is processed exactly as a HOLD
    bar, opens nothing, and leaves an open position in place unless the price
    reaches its stop or take level; and every trade of the ledger is long,
    closed with reason stop_loss or take_profit. *)
Theorem backtest_long_only (p : Params) (pre : list Bar) (row : Bar)
    (initial_capital : Q) (st st' : LoopState) :
  backtest_loop p pre (initial_state initial_capital) = Ok st ->
  loop_body p row st = Ok st' ->
  (forall q, position st' = Some q ->
     position st = Some q \/
     (position st = None /\ action (signal row) = "BUY"%string /\
      direction q = "long"%string)) /\
  (action (signal row) = "SELL"%string ->
     loop_body p (mkBar (timestamp row) (price row) (mkSignal "HOLD")) st = Ok st' /\
     (position st = None -> position st' = None) /\
     (forall q, position st = Some q ->
        stop_loss q < price row < take_profit q -> position st' = Some q)) /\
  Forall long_exit (trades st').
Proof.
  intros Hpre Hrow.
  assert (Hledger : Forall long_exit (trades st)).
  { eapply backtest_loop_long_exit; [exact Hpre | constructor]. }
  split; [|split].
  - intros q Hq. unfold loop_body in Hrow.
    apply bind_inv in Hrow as ([[b' pos'] new] & Hstep & [= <-]).
    cbn [position] in Hq. subst pos'.
    apply process_signal_inv in Hstep.
    destruct (position st) as [q0|].
    + destruct Hstep as [([= ->] & _) | ([=] & _)]. now left.
    + destruct Hstep as [_ [(Hact & _ & _ & q' & [= <-] & Hd & _) | (_ & [=] & _)]].
      right. auto.
  - intros Hsell. split; [|split].
    + rewrite <- Hrow. unfold loop_body. cbn [signal price timestamp].
      rewrite (process_signal_not_buy (signal row) (mkSignal "HOLD"));
        [reflexivity | rewrite Hsell; discriminate | cbn; discriminate].
    + intros Hnone. unfold loop_body in Hrow. rewrite Hnone in Hrow.
      unfold _process_signal in Hrow. rewrite Hsell in Hrow.
      cbn in Hrow. now injection Hrow as <-.
    + intros q Hq [Hsl Htp].
      assert (Hq' := Hq). unfold loop_body in Hrow. rewrite Hq in Hrow.
      apply bind_inv in Hrow as ([[b' pos'] new] & Hstep & [= <-]).
      cbn [position].
      apply process_signal_inv in Hstep.
      destruct Hstep as [(-> & _) | (_ & _ & [H|H] & _)];
        [reflexivity | lra | lra].
  - eapply loop_body_long_exit; eauto.
Qed.

Lemma backtest_long_only_witness :
  exists st',
    e2e_run 100 100 = Ok st' /\ Forall long_exit (trades st').
Proof.
  eexists. split; [vm_compute; reflexivity|].
  refine (proj2 (proj2 (backtest_long_only (read_params e2e_params)
            [mkBar 0 100 (mkSignal "BUY"); mkBar 1 100 (mkSignal "HOLD");
             mkBar 2 100 (mkSignal "HOLD")]
            (mkBar 3 110 (mkSignal "SELL")) 10000 _ _ _ _))).
  - vm_compute. reflexivity.
  - vm_compute. reflexivity.
Defined.

End BacktestClaims.

(** ** Dictionaries *)

Section DictFacts.

Context {V : Type}.

Lemma dict_count_cons (k k0 : string) (v0 : V) (d : dict V) :
  dict_count k ((k0, v0) :: d)
  = ((if String.eqb k k0 then 1 else 0) + dict_count k d)%nat.
Proof.
  unfold dict_count. cbn [filter fst].
  destruct (String.eqb k k0); reflexivity.
Qed.

Lemma dict_count_set_same (k : string) (v : V) (d : dict V) :
  dict_count k (dict_set k v d) = Nat.max 1 (dict_count k d).
Proof.
  induction d as [|[k0 v0] d IH]; cbn [dict_set].
  - rewrite dict_count_cons, String.eqb_refl. reflexivity.
  - destruct (String.eqb k k0) eqn:E.
    + rewrite !dict_count_cons, E, String.eqb_refl. lia.
    + rewrite !dict_count_cons, E, IH. lia.
Qed.

Lemma dict_count_set_other (k k' : string) (v : V) (d : dict V) :
  k <> k' -> dict_count k (dict_set k' v d) = dict_count k d.
Proof.
  intros Hne. apply String.eqb_neq in Hne.
  induction d as [|[k0 v0] d IH]; cbn [dict_set].
  - rewrite dict_count_cons, Hne. reflexivity.
  - destruct (String.eqb k' k0) eqn:E.
    + apply String.eqb_eq in E. subst k0.
      rewrite !dict_count_cons, Hne. reflexivity.
    + rewrite !dict_count_cons, IH. reflexivity.
Qed.

Lemma dict_count_pop_le (k k' : string) (d : dict V) :
  (dict_count k (snd (dict_pop k' d)) <= dict_count k d)%nat.
Proof.
  induction d as [|[k0 v0] d IH]; cbn [dict_pop snd]; [lia|].
  destruct (String.eqb k' k0).
  - cbn [snd]. rewrite dict_count_cons. lia.
  - destruct (dict_pop k' d) as [r d'']. cbn [snd] in *.
    rewrite !dict_count_cons. lia.
Qed.

Lemma unique_keys_nil : unique_keys (@nil (string * V)).
Proof. intros k. cbn. lia. Qed.

Lemma unique_keys_set (k : string) (v : V) (d : dict V) :
  unique_keys d -> unique_keys (dict_set k v d).
Proof.
  intros H k'. destruct (string_dec k' k) as [->|Hne].
  - rewrite dict_count_set_same. specialize (H k). lia.
  - rewrite dict_count_set_other by exact Hne. apply H.
Qed.

Lemma unique_keys_pop (k : string) (d : dict V) :
  unique_keys d -> unique_keys (snd (dict_pop k d)).
Proof.
  intros H k'. pose proof (dict_count_pop_le k' k d). specialize (H k'). lia.
Qed.

Lemma dict_get_set_same (k : string) (v : V) (d : dict V) :
  dict_get k (dict_set k v d) = Some v.
Proof.
  induction d as [|[k0 v0] d IH]; cbn [dict_set dict_get].
  - now rewrite String.eqb_refl.
  - destruct (String.eqb k k0) eqn:E; cbn [dict_get].
    + now rewrite String.eqb_refl.
    + now rewrite E.
Qed.

End DictFacts.

(** ** The live position manager *)

Section LiveFacts.

Import Live.

Context {RS : RiskSizer}.

Lemma send_order_positions (o : Order) (self : PositionManager) :
  positions (send_order o self) = positions self.
Proof. reflexivity. Qed.

Lemma close_position_unique (symbol : string) (self : PositionManager) :
  unique_keys (positions self) -> unique_keys (positions (_close_position symbol self)).
Proof.
  intros H. unfold _close_position.
  pose proof (unique_keys_pop symbol (positions self) H) as Hpop.
  destruct (dict_pop symbol (positions self)) as [popped remaining].
  cbn [snd] in Hpop. destruct popped; exact Hpop.
Qed.

Lemma open_position_unique (env : ExecEnv) (symbol side : string)
    (quantity sl tp : Q) (self : PositionManager) :
  unique_keys (positions self) ->
  unique_keys (positions (fst (_open_position env symbol side quantity sl tp self))).
Proof.
  intros H. unfold _open_position.
  destruct (order_fills env) as [[|fill fills]|]; cbn [fst positions send_order];
    try exact H.
  now apply unique_keys_set.
Qed.

Lemma execute_unique (env : ExecEnv) (sig : LiveSignal) (self : PositionManager) :
  unique_keys (positions self) ->
  unique_keys (positions (fst (execute env sig self))).
Proof.
  intros H. unfold execute.
  destruct (signal sig =? 0)%Z; [exact H|].
  destruct (negb (_can_trade _ _ _)); [exact H|].
  destruct (_get_volatility _) as [volatility|e]; [|exact H].
  destruct (calculate_position_size_kw _ _ _) as [size|e]; [|exact H].
  destruct (signal sig =? 1)%Z; [now apply open_position_unique|].
  destruct (signal sig =? -1)%Z; [now apply open_position_unique | exact H].
Qed.

Lemma monitor_items_unique (last_price : string -> result Q)
    (items : list (string * LivePosition)) :
  forall self, unique_keys (positions self) ->
  unique_keys (positions (fst (monitor_items last_price items self))).
Proof.
  induction items as [|[symbol position] items IH]; intros self H;
    cbn [monitor_items]; [exact H|].
  destruct (last_price symbol) as [current_price|e]; [|exact H].
  apply IH.
  repeat match goal with
         | |- context [if ?c then _ else _] => destruct c
         end;
    repeat apply close_position_unique; exact H.
Qed.

Lemma run_steps_unique (steps : list step) :
  forall self, unique_keys (positions self) ->
  unique_keys (positions (run_steps steps self)).
Proof.
  induction steps as [|s steps IH]; intros self H; cbn [run_steps]; [exact H|].
  apply IH. destruct s as [env sig|last_price]; cbn [run_step].
  - now apply execute_unique.
  - now apply monitor_items_unique.
Qed.

End LiveFacts.

(** ** Open positions and re-entry *)

Section PositionClaims.

(** In a replay an open position is never replaced: after a bar it is still
    the same position, or it has been closed. *)
Lemma loop_body_keeps_or_closes (p : Backtest.Params) (row : Backtest.Bar)
    (st st' : Backtest.LoopState) (q : Backtest.Position) :
  Backtest.position st = Some q ->
  Backtest.loop_body p row st = Ok st' ->
  Backtest.position st' = Some q \/ Backtest.position st' = None.
Proof.
  intros Hq H. unfold Backtest.loop_body in H.
  apply bind_inv in H as ([[b' pos'] new] & Hstep & [= <-]).
  cbn [Backtest.position].
  apply process_signal_inv in Hstep. rewrite Hq in Hstep.
  destruct Hstep as [(-> & _) | (-> & _)]; auto.
Qed.

(** In a replay a BUY bar met without a position opens one, at whatever
    time it arrives. *)
Lemma loop_body_buy_opens (p : Backtest.Params) (row : Backtest.Bar)
    (st : Backtest.LoopState) :
  Backtest.position st = None ->
  Backtest.action (Backtest.signal row) = "BUY"%string ->
  ~ Backtest.price row == 0 ->
  exists st' q,
    Backtest.loop_body p row st = Ok st' /\
    Backtest.position st' = Some q /\
    Backtest.entry_time q = Backtest.timestamp row.
Proof.
  intros Hnone Hbuy Hp. unfold Backtest.loop_body, Backtest._process_signal.
  rewrite Hnone, Hbuy. cbn [String.eqb Ascii.eqb Bool.eqb].
  rewrite (py_div_ok
             (Backtest.balance st * Backtest.position_size_pct p / 100) _ Hp).
  cbn [bind]. eexists. eexists. split; [reflexivity|].
  cbn [Backtest.position Backtest.entry_time]. split; reflexivity.
Qed.

(** In the live manager a signal that arrives less than the minimum interval
    after an order was filled is dropped. *)
Lemma execute_throttled {RS : Live.RiskSizer} (env1 env2 : Live.ExecEnv)
    (sig1 sig2 : Live.LiveSignal) (self : Live.PositionManager) :
  Live.orders (fst (Live.execute env1 sig1 self)) <> Live.orders self ->
  (exists fill fills, Live.order_fills env1 = Some (fill :: fills)) ->
  Live.clock_can_trade env2 - Live.clock_opened env1 < Live.min_trade_interval self ->
  Live.execute env2 sig2 (fst (Live.execute env1 sig1 self))
  = (fst (Live.execute env1 sig1 self), Ok tt).
Proof.
  intros Hsent (fill & fills & Hfill) Hclock.
  assert (Hopen : forall side q sl tp,
            Live.execute env2 sig2
              (fst (Live._open_position env1 "BTCUSDT" side q sl tp self))
            = (fst (Live._open_position env1 "BTCUSDT" side q sl tp self), Ok tt)).
  { intros side q sl tp. unfold Live._open_position. rewrite Hfill. cbn [fst].
    unfold Live.execute.
    destruct (Live.signal sig2 =? 0)%Z; [reflexivity|].
    unfold Live._can_trade.
    cbn [Live.last_trade_time Live.min_trade_interval Live.send_order].
    unfold dict_get_default. rewrite dict_get_set_same.
    rewrite (Qle_bool_false _ _ Hclock). reflexivity. }
  revert Hsent. unfold Live.execute at 1 3 4.
  destruct (Live.signal sig1 =? 0)%Z; [intros []; reflexivity|].
  destruct (negb (Live._can_trade _ _ _)); [intros []; reflexivity|].
  destruct (Live._get_volatility _) as [volatility|e]; [|intros []; reflexivity].
  destruct (Live.calculate_position_size_kw _ _ _) as [size|e];
    [|intros []; reflexivity].
  destruct (Live.signal sig1 =? 1)%Z; [intros _; apply Hopen|].
  destruct (Live.signal sig1 =? -1)%Z; [intros _; apply Hopen|].
  intros []; reflexivity.
Qed.



(** C8 as stated fails in the replay: with default parameters, a BUY at
    second 0 opens a position, the bar at second 1 closes it at its take
    level, and the BUY at second 2 opens a second position, two seconds
    after the first. *)
Lemma backtest_reentry_within_interval :
  exists st1 st2 st3 q1 q3,
    Backtest.backtest_states (Backtest.read_params []) Scenario.reentry_bars
      (Backtest.initial_state 10000) = [st1; st2; st3] /\
    Backtest.position st1 = Some q1 /\ Backtest.entry_time q1 = 0%Z /\
    Backtest.position st2 = None /\
    Backtest.position st3 = Some q3 /\ Backtest.entry_time q3 = 2%Z /\
    inject_Z (Backtest.entry_time q3 - Backtest.entry_time q1)
      < Live.min_trade_interval Live.init.
Proof.
  do 5 eexists. split; [vm_compute; reflexivity|].
  cbn [Backtest.position Backtest.entry_time].
  repeat split; reflexivity.
Qed.

(** C8, amended.  Live: once an [execute] call has sent an order that was
    filled, a later [execute] call whose clock reads less than the minimum
    interval after the fill changes nothing and sends nothing.  Replay: a bar
    that meets an open position never opens another one, but there is no
    interval: a BUY bar that meets no position opens one whenever it comes. *)
Theorem reentry_throttle_live_only :
  (forall (RS : Live.RiskSizer) (env1 env2 : Live.ExecEnv)
          (sig1 sig2 : Live.LiveSignal) (self : Live.PositionManager),
      Live.orders (fst (Live.execute env1 sig1 self)) <> Live.orders self ->
      (exists fill fills, Live.order_fills env1 = Some (fill :: fills)) ->
      Live.clock_can_trade env2 - Live.clock_opened env1
        < Live.min_trade_interval self ->
      Live.execute env2 sig2 (fst (Live.execute env1 sig1 self))
      = (fst (Live.execute env1 sig1 self), Ok tt)) /\
  (forall (p : Backtest.Params) (row : Backtest.Bar)
          (st st' : Backtest.LoopState) (q : Backtest.Position),
      Backtest.position st = Some q ->
      Backtest.loop_body p row st = Ok st' ->
      Backtest.position st' = Some q \/ Backtest.position st' = None) /\
  (forall (p : Backtest.Params) (row : Backtest.Bar) (st : Backtest.LoopState),
      Backtest.position st = None ->
      Backtest.action (Backtest.signal row) = "BUY"%string ->
      ~ Backtest.price row == 0 ->
      exists st' q,
        Backtest.loop_body p row st = Ok st' /\
        Backtest.position st' = Some q /\
        Backtest.entry_time q = Backtest.timestamp row).
Proof.
  split; [|split].
  - intros RS. apply @execute_throttled.
  - apply loop_body_keeps_or_closes.
  - apply loop_body_buy_opens.
Qed.

End PositionClaims.

Section LiveInert.

(** With the repository's own [RiskManager] the sizing call raises, so
    [execute] never sends an order nor records a position. *)
Lemma execute_with_repository_risk_manager (env : Live.ExecEnv)
    (sig : Live.LiveSignal) (self : Live.PositionManager) :
  fst (@Live.execute Live.RiskManager_sizer env sig self) = self.
Proof.
  unfold Live.execute.
  destruct (Live.signal sig =? 0)%Z; [reflexivity|].
  destruct (negb (Live._can_trade _ _ _)); [reflexivity|].
  destruct (Live._get_volatility _); reflexivity.
Qed.

Lemma reentry_throttle_live_only_witness :
  Live.orders (fst (@Live.execute Scenario.volatility_sizer Scenario.first_call
                      Scenario.live_buy Live.init))
    <> Live.orders Live.init /\
  Live.clock_can_trade Scenario.second_call - Live.clock_opened Scenario.first_call
    < Live.min_trade_interval Live.init /\
  @Live.execute Scenario.volatility_sizer Scenario.second_call Scenario.live_buy
    (fst (@Live.execute Scenario.volatility_sizer Scenario.first_call
            Scenario.live_buy Live.init))
  = (fst (@Live.execute Scenario.volatility_sizer Scenario.first_call
            Scenario.live_buy Live.init), Ok tt).
Proof.
  assert (H1 : Live.orders (fst (@Live.execute Scenario.volatility_sizer
                 Scenario.first_call Scenario.live_buy Live.init))
               <> Live.orders Live.init) by (vm_compute; discriminate).
  assert (H2 : Live.clock_can_trade Scenario.second_call
               - Live.clock_opened Scenario.first_call
               < Live.min_trade_interval Live.init) by reflexivity.
  split; [exact H1 | split; [exact H2|]].
  apply (proj1 reentry_throttle_live_only Scenario.volatility_sizer
           Scenario.first_call Scenario.second_call
           Scenario.live_buy Scenario.live_buy Live.init H1).
  - exists 50000, []. reflexivity.
  - exact H2.
Defined.


(** Two BUY signals 1,000 seconds apart, both filled: two BUY orders of
    10,000 each have been sent and none closes anything, while the manager
    tracks 10,000. *)
Lemma two_buys_one_tracked :
  Live.orders
    (fst (@Live.execute Scenario.volatility_sizer Scenario.third_call
            Scenario.live_buy
            (fst (@Live.execute Scenario.volatility_sizer Scenario.first_call
                    Scenario.live_buy Live.init))))
  = [ Live.mkOrder "BTCUSDT" "BUY" "MARKET" (10000 * (1 # 100) / (1 # 100));
      Live.mkOrder "BTCUSDT" "BUY" "MARKET" (10000 * (1 # 100) / (1 # 100)) ] /\
  Live.net_bought "BTCUSDT"
    (Live.orders
       (fst (@Live.execute Scenario.volatility_sizer Scenario.third_call
               Scenario.live_buy
               (fst (@Live.execute Scenario.volatility_sizer Scenario.first_call
                       Scenario.live_buy Live.init)))))
    == 20000 /\
  Live.tracked "BTCUSDT"
    (fst (@Live.execute Scenario.volatility_sizer Scenario.third_call
            Scenario.live_buy
            (fst (@Live.execute Scenario.volatility_sizer Scenario.first_call
                    Scenario.live_buy Live.init))))
    == 10000.
Proof. split; [|split]; vm_compute; reflexivity. Qed.

End LiveInert.

(** ** The trading loop *)

Section TraderClaims.

Import Trader.

Lemma trading_loop_inactive (notification_service : NotificationService)
    (cycles : list CycleWorld) (self : TraderBase) :
  state self <> "active"%string ->
  _trading_loop notification_service cycles self = (self, Ok tt).
Proof.
  intros H. apply String.eqb_neq in H.
  destruct cycles; cbn [_trading_loop]; now rewrite H.
Qed.

(** Clean cycles are run one after the other. *)
Lemma trading_loop_clean_cycles (notification_service : NotificationService)
    (pre rest : list CycleWorld) :
  Forall (fun c => _execute_cycle c = Ok tt) pre ->
  forall self, state self = "active"%string ->
  _trading_loop notification_service (pre ++ rest) self
  = _trading_loop notification_service rest
      {| state := "active";
         error_log := error_log self;
         notifications := notifications self;
         cycles_started := (List.length pre + cycles_started self)%nat |}.
Proof.
  induction 1 as [|c pre Hc _ IH]; intros self Hactive; cbn [app List.length].
  - destruct self as [s l n c]. cbn in *. now subst.
  - cbn [_trading_loop]. rewrite Hactive. cbn [String.eqb Ascii.eqb Bool.eqb].
    rewrite Hc. rewrite IH by reflexivity.
    cbn [error_log notifications cycles_started].
    do 2 f_equal. lia.
Qed.

(** The handler of a failed cycle with a notification service that has no
    [send]: the error is logged, the lookup raises, the exception leaves the
    loop and the state is still [active]. *)
Lemma trading_loop_handler_raises (cycles : list CycleWorld) (w : CycleWorld)
    (e : exn) (self : TraderBase) :
  state self = "active"%string ->
  _execute_cycle w = Raise e ->
  _trading_loop repository_notifications (w :: cycles) self
  = ({| state := "active";
        error_log := error_log self ++ [e];
        notifications := notifications self;
        cycles_started := S (cycles_started self) |},
     Raise (AttributeError "send")).
Proof.
  intros Hactive Hw. cbn [_trading_loop]. rewrite Hactive.
  cbn [String.eqb Ascii.eqb Bool.eqb]. rewrite Hw. reflexivity.
Qed.

(** C5 as stated fails: when the first of two cycles raises, one cycle has
    been started and the second is never run, whether the notification
    service has no [send] (the exception of the handler leaves the loop) or
    delivers the message (the loop ends in state [error]). *)
Lemma trading_loop_halts_on_error :
  _trading_loop repository_notifications [Scenario.failing_cycle; good_cycle] started
  = ({| state := "active";
        error_log := [AttributeError "get_open_positions"];
        notifications := [];
        cycles_started := 1 |},
     Raise (AttributeError "send")) /\
  _trading_loop repository_notifications [Scenario.failing_cycle; good_cycle] started
  = _trading_loop repository_notifications [Scenario.failing_cycle] started /\
  _trading_loop Scenario.delivering_notifications
    [Scenario.failing_cycle; good_cycle] started
  = ({| state := "error";
        error_log := [AttributeError "get_open_positions"];
        notifications := [AttributeError "get_open_positions"];
        cycles_started := 1 |},
     Ok tt) /\
  _trading_loop Scenario.delivering_notifications
    [Scenario.failing_cycle; good_cycle] started
  = _trading_loop Scenario.delivering_notifications [Scenario.failing_cycle] started.
Proof. repeat split; reflexivity. Qed.

(** C5, amended.  When a cycle raises after any number of clean cycles, the
    loop logs the error and runs none of the cycles that would have
    followed, whatever the notification service does; when the service
    delivers the error message, the loop has sent that one notification,
    leaves the trader in state [error] and returns. *)
Theorem trading_loop_stops_at_first_error
    (notification_service : NotificationService) (pre post : list CycleWorld)
    (w : CycleWorld) (e : exn) (self : TraderBase) :
  state self = "active"%string ->
  Forall (fun c => _execute_cycle c = Ok tt) pre ->
  _execute_cycle w = Raise e ->
  error_log (fst (_trading_loop notification_service (pre ++ w :: post) self))
    = error_log self ++ [e] /\
  cycles_started (fst (_trading_loop notification_service (pre ++ w :: post) self))
    = (List.length pre + 1 + cycles_started self)%nat /\
  _trading_loop notification_service (pre ++ w :: post) self
    = _trading_loop notification_service (pre ++ [w]) self /\
  (forall send_message,
     send notification_service = Some send_message ->
     send_message e = Ok tt ->
     _trading_loop notification_service (pre ++ w :: post) self
     = ({| state := "error";
           error_log := error_log self ++ [e];
           notifications := notifications self ++ [e];
           cycles_started := (List.length pre + 1 + cycles_started self)%nat |},
        Ok tt)).
Proof.
  intros Hactive Hpre Hw.
  rewrite !(trading_loop_clean_cycles notification_service pre _ Hpre self Hactive).
  cbn [_trading_loop state String.eqb Ascii.eqb Bool.eqb]. rewrite Hw.
  cbn [error_log notifications cycles_started].
  replace (S (List.length pre + cycles_started self))
    with (List.length pre + 1 + cycles_started self)%nat by lia.
  destruct (send notification_service) as [send_message|] eqn:Hsend.
  - destruct (send_message e) as [[]|e'] eqn:He; cbn [fst error_log cycles_started];
      (split; [reflexivity|]); (split; [reflexivity|]); (split; [reflexivity|]);
      intros f [= <-] Hf.
    + reflexivity.
    + rewrite Hf in He. discriminate.
  - cbn [fst error_log cycles_started].
    split; [reflexivity|]. split; [reflexivity|]. split; [reflexivity|].
    intros f [=].
Qed.

Lemma trading_loop_stops_at_first_error_witness :
  _trading_loop Scenario.delivering_notifications
    ([good_cycle; good_cycle] ++ Scenario.failing_cycle :: [good_cycle]) started
  = ({| state := "error";
        error_log := [AttributeError "get_open_positions"];
        notifications := [AttributeError "get_open_positions"];
        cycles_started := 3 |},
     Ok tt).
Proof.
  refine (proj2 (proj2 (proj2
            (trading_loop_stops_at_first_error Scenario.delivering_notifications
               [good_cycle; good_cycle] [good_cycle] Scenario.failing_cycle
               (AttributeError "get_open_positions") started _ _ _)))
            (fun _ => Ok tt) _ _).
  - reflexivity.
  - repeat constructor.
  - reflexivity.
  - reflexivity.
  - reflexivity.
Defined.

End TraderClaims.

(** ** Market-data preparation *)

Section SignalGenClaims.

Import SignalGen.

(** Prepared data fed back as input comes out unchanged. *)
Lemma prepare_fixed_point (now : Z) (symbol : string) (p v : Q) (s : Series)
    (x : dict value) :
  _prepare_market_data now symbol
    [(symbol, IsDict {| price := Some p; volume := Some v; close := Some s; extra := x |})]
  = {| price := Some p; volume := Some v; close := Some s; extra := x |}.
Proof.
  unfold _prepare_market_data. cbn [dict_get]. rewrite String.eqb_refl. reflexivity.
Qed.




End SignalGenClaims.

(** ** Metrics and sizing *)

Section MetricsClaims.

Import Backtest.

Lemma Qabs_le_zero (x : Q) : Qabs x <= 0 -> x == 0.
Proof.
  intros H. apply Qabs_Qle_condition in H. destruct H as [H1 H2]. lra.
Qed.

Lemma Qabs_zero (x : Q) : x == 0 -> Qabs x == 0.
Proof. intros H. rewrite H. reflexivity. Qed.

(** C7 as stated fails: with the stop level on the entry price, a BUY at
    100 followed by a bar at 100 gives a ledger of one break-even trade, and
    on that ledger and the equity curve of the run the profit factor is
    reported as infinite although the winning trades sum to zero. *)
Lemma profit_factor_infinite_without_wins :
  exists st m,
    backtest_loop (read_params Scenario.flat_params) Scenario.flat_bars
      (initial_state 10000) = Ok st /\
    _calculate_performance_metrics 10000 (balance st) (trades st) (equity_curve st)
      = Ok m /\
    profit_factor m = PosInf /\
    py_sum (map pnl_pct (filter is_winning (trades st))) == 0 /\
    ~ (profit_factor m = PosInf <->
       py_sum (map pnl_pct (filter is_losing (trades st))) == 0 /\
       ~ py_sum (map pnl_pct (filter is_winning (trades st))) == 0).
Proof.
  eexists. eexists. split; [vm_compute; reflexivity|].
  split; [vm_compute; reflexivity|].
  cbn [profit_factor trades]. split; [reflexivity|]. split; [reflexivity|].
  intros [H _]. destruct (H eq_refl) as [_ Hw]. apply Hw. reflexivity.
Qed.

(** C7, amended.  From a non-zero initial capital, and with an equity curve
    that has a point whenever the ledger has a trade, the metrics are
    computed.  The profit factor is 0 on an empty ledger; on a non-empty one
    it is the summed winning pnl over the absolute summed losing pnl when
    the latter is not zero, and infinite exactly when the summed losing pnl
    is zero, whatever the winning pnl sums to. *)
Theorem profit_factor_spec (initial_capital final_balance : Q)
    (trades : list Trade) (equity_curve : list EquityPoint) :
  ~ initial_capital == 0 ->
  trades = [] \/ equity_curve <> [] ->
  exists m,
    _calculate_performance_metrics initial_capital final_balance trades equity_curve
      = Ok m /\
    (trades = [] -> profit_factor m = Fin 0) /\
    (trades <> [] ->
     ~ py_sum (map pnl_pct (filter is_losing trades)) == 0 ->
     exists q,
       profit_factor m = Fin q /\
       q == py_sum (map pnl_pct (filter is_winning trades))
            / Qabs (py_sum (map pnl_pct (filter is_losing trades)))) /\
    (profit_factor m = PosInf <->
     trades <> [] /\ py_sum (map pnl_pct (filter is_losing trades)) == 0).
Proof.
  intros Hcap Hcurve. unfold _calculate_performance_metrics.
  destruct trades as [|t ts].
  - eexists. split; [reflexivity|]. cbn [profit_factor].
    split; [reflexivity|]. split; [intros H; now contradiction H|].
    split; [discriminate | intros [H _]; now contradiction H].
  - destruct Hcurve as [Hcurve | Hcurve]; [discriminate|].
    destruct equity_curve as [|pt curve]; [now contradiction Hcurve|].
    set (trades := t :: ts).
    rewrite (py_div_ok (final_balance - initial_capital) _ Hcap). cbn [bind].
    unfold len_ratio. rewrite py_div_ok by (cbn; intro; discriminate). cbn [bind].
    set (losses := py_sum (map pnl_pct (filter is_losing trades))).
    set (wins := py_sum (map pnl_pct (filter is_winning trades))).
    destruct (Qle_bool (Qabs losses) 0) eqn:Hloss; cbn [negb].
    + apply Qle_bool_iff, Qabs_le_zero in Hloss.
      cbn [bind]. eexists. split; [reflexivity|]. cbn [profit_factor].
      split; [discriminate|]. split; [intros _ H; now contradiction H|].
      split; [intros _; split; [discriminate | exact Hloss] | reflexivity].
    + apply Qle_bool_false_inv in Hloss.
      assert (Hnz : ~ Qabs losses == 0) by (intros E; rewrite E in Hloss; lra).
      rewrite (py_div_ok wins _ Hnz). cbn [bind].
      eexists. split; [reflexivity|]. cbn [profit_factor].
      split; [discriminate|]. split.
      * intros _ _. eexists. split; reflexivity.
      * split; [discriminate|]. intros [_ H]. exfalso. apply Hnz.
        now apply Qabs_zero.
Qed.

Lemma profit_factor_spec_witness :
  exists st,
    backtest_loop (read_params []) Scenario.stopped_bars (initial_state 10000)
      = Ok st /\
    exists m,
      _calculate_performance_metrics 10000 (balance st) (trades st) (equity_curve st)
        = Ok m /\
      (trades st = [] -> profit_factor m = Fin 0) /\
      (trades st <> [] ->
       ~ py_sum (map pnl_pct (filter is_losing (trades st))) == 0 ->
       exists q,
         profit_factor m = Fin q /\
         q == py_sum (map pnl_pct (filter is_winning (trades st)))
              / Qabs (py_sum (map pnl_pct (filter is_losing (trades st))))) /\
      (profit_factor m = PosInf <->
       trades st <> [] /\
       py_sum (map pnl_pct (filter is_losing (trades st))) == 0).
Proof.
  eexists. split; [vm_compute; reflexivity|].
  apply (profit_factor_spec 10000).
  - intro; discriminate.
  - right. cbn [equity_curve]. discriminate.
Defined.

End MetricsClaims.

Section RiskClaims.

Import Risk.

(** C9 (position sizing).  For every balance, risk fraction, entry price and
    stop price the sizing returns a quantity and raises nothing: 0 when the
    stop equals the entry, and otherwise the risked amount over the distance
    between entry and stop. *)
Theorem calculate_position_size_spec (self : RiskManager) (stop_loss entry_price : Q) :
  exists quantity,
    calculate_position_size self stop_loss entry_price = Ok quantity /\
    (stop_loss == entry_price -> quantity == 0) /\
    (~ stop_loss == entry_price ->
     quantity == (account_balance self * max_risk_per_trade self)
                 / Qabs (entry_price - stop_loss)).
Proof.
  unfold calculate_position_size.
  destruct (Qle_bool (Qabs (entry_price - stop_loss)) 0) eqn:Hd; cbn [negb].
  - apply Qle_bool_iff, Qabs_le_zero in Hd.
    eexists. split; [reflexivity|]. split; [reflexivity|].
    intros Hne. exfalso. apply Hne. lra.
  - apply Qle_bool_false_inv in Hd.
    assert (Hnz : ~ Qabs (entry_price - stop_loss) == 0)
      by (intros E; rewrite E in Hd; lra).
    rewrite (py_div_ok _ _ Hnz).
    eexists. split; [reflexivity|]. split; [|reflexivity].
    intros Heq. exfalso. apply Hnz. apply Qabs_zero. lra.
Qed.

Lemma calculate_position_size_spec_witness :
  exists quantity,
    calculate_position_size (init 10000) 95 100 = Ok quantity /\
    (95 == 100 -> quantity == 0) /\
    (~ 95 == 100 ->
     quantity == (account_balance (init 10000) * max_risk_per_trade (init 10000))
                 / Qabs (100 - 95)).
Proof.
  exact (calculate_position_size_spec (init 10000) 95 100).
Defined.

End RiskClaims.

(* ================================================================== *)
(** * Further properties of the replay engine                         *)
(* ================================================================== *)

Section BacktestMore.

Import Backtest Scenario.

(** The final balance of any replay is the initial capital, plus the
    realized PnL of the ledger, minus every commission charged, plus the
    cost basis of every closed trade. *)
Theorem backtest_final_balance (p : Params) (rows : list Bar)
    (initial_capital : Q) (st : LoopState) :
  backtest_loop p rows (initial_state initial_capital) = Ok st ->
  balance st ==
    initial_capital + Qsum realized_pnl_notional (trades st)
    - commissions p rows (initial_state initial_capital)
    + Qsum cost_basis (trades st).
Proof.
  intros H. destruct (backtest_loop_accounting _ _ _ _ H) as (new & Ht & Hb).
  cbn [initial_state trades balance app] in Ht, Hb.
  rewrite Hb, Ht, proceeds_split. ring.
Qed.

Lemma backtest_final_balance_witness :
  exists st,
    backtest_loop (read_params []) reentry_bars (initial_state 10000) = Ok st /\
    balance st ==
      10000 + Qsum realized_pnl_notional (trades st)
      - commissions (read_params []) reentry_bars (initial_state 10000)
      + Qsum cost_basis (trades st).
Proof.
  eexists. split; [vm_compute; reflexivity|].
  apply (backtest_final_balance (read_params []) reentry_bars 10000).
  vm_compute. reflexivity.
Defined.

Lemma backtest_loop_equity (p : Params) (rows : list Bar) :
  forall st st', backtest_loop p rows st = Ok st' ->
  map eq_timestamp (equity_curve st')
    = map eq_timestamp (equity_curve st) ++ map timestamp rows /\
  map eq_balance (equity_curve st')
    = map eq_balance (equity_curve st)
      ++ removelast (balance st :: map balance (backtest_states p rows st)).
Proof.
  induction rows as [|row rows IH]; intros st st' H;
    cbn [backtest_loop backtest_states] in *.
  - injection H as <-. cbn. now rewrite !app_nil_r.
  - apply bind_inv in H as (st1 & Hbody & Hrest). rewrite Hbody.
    destruct (IH _ _ Hrest) as [Ht Hb].
    rewrite (loop_body_equity _ _ _ _ Hbody) in Ht, Hb.
    rewrite map_app in Ht, Hb. cbn [map eq_timestamp eq_balance] in Ht, Hb.
    split.
    + rewrite Ht, <- app_assoc. reflexivity.
    + rewrite Hb, <- app_assoc. cbn [map app]. reflexivity.
Qed.

(** The equity curve of a replay has one point per bar, stamped with the
    bar's timestamp, in bar order; each point records the balance before its
    bar is processed, so the curve starts at the initial capital and never
    shows what the last bar did to the balance. *)
Theorem equity_curve_shape (p : Params) (rows : list Bar)
    (initial_capital : Q) (st : LoopState) :
  backtest_loop p rows (initial_state initial_capital) = Ok st ->
  map eq_timestamp (equity_curve st) = map timestamp rows /\
  map eq_balance (equity_curve st)
    = removelast
        (initial_capital
         :: map balance (backtest_states p rows (initial_state initial_capital))).
Proof.
  intros H. destruct (backtest_loop_equity _ _ _ _ H) as [Ht Hb]. split; assumption.
Qed.

Lemma equity_curve_shape_witness :
  exists st,
    e2e_run 100 100 = Ok st /\
    map eq_timestamp (equity_curve st) = [0; 1; 2; 3]%Z /\
    map eq_balance (equity_curve st)
      = removelast
          (10000 :: map balance
             (backtest_states (read_params e2e_params) (e2e_bars 100 100)
                (initial_state 10000))).
Proof.
  eexists. split; [vm_compute; reflexivity|].
  apply (equity_curve_shape (read_params e2e_params) (e2e_bars 100 100) 10000).
  vm_compute. reflexivity.
Defined.

Lemma loop_body_opened (p : Params) (row : Bar) (st st' : LoopState) :
  loop_body p row st = Ok st' ->
  (match position st, position st' with
   | None, Some _ => 1
   | _, _ => 0
   end + open_positions st + List.length (trades st)
   = List.length (trades st') + open_positions st')%nat.
Proof.
  unfold loop_body, open_positions. intros H.
  apply bind_inv in H as ([[b' pos'] new] & Hstep & [= <-]).
  cbn [position trades]. rewrite length_app.
  apply process_signal_inv in Hstep.
  destruct (position st) as [q|].
  - destruct Hstep as [(-> & -> & _) | (-> & _ & _ & _ & t & -> & _)];
      cbn [List.length]; lia.
  - destruct Hstep as [-> [(_ & _ & _ & q & -> & _) | (_ & -> & _)]];
      cbn [List.length]; lia.
Qed.

(** Every position a replay opens is either still open at the end or has
    given exactly one trade: the number of positions opened equals the
    length of the ledger plus the number of positions still open. *)
Theorem opened_positions_accounted (p : Params) (rows : list Bar)
    (initial_capital : Q) (st : LoopState) :
  backtest_loop p rows (initial_state initial_capital) = Ok st ->
  positions_opened p rows (initial_state initial_capital)
  = (List.length (trades st) + open_positions st)%nat.
Proof.
  assert (Hgen : forall rows st0 st1, backtest_loop p rows st0 = Ok st1 ->
            (positions_opened p rows st0 + open_positions st0
             + List.length (trades st0)
             = List.length (trades st1) + open_positions st1)%nat).
  { clear. induction rows as [|row rows' IH]; intros st0 st1 H;
      cbn [backtest_loop positions_opened] in *.
    - injection H as <-. lia.
    - apply bind_inv in H as (st' & Hbody & Hrest). rewrite Hbody.
      pose proof (loop_body_opened _ _ _ _ Hbody).
      pose proof (IH _ _ Hrest). lia. }
  intros H. specialize (Hgen _ _ _ H). cbn in Hgen. lia.
Qed.

Lemma opened_positions_accounted_witness :
  exists st,
    backtest_loop (read_params []) reentry_bars (initial_state 10000) = Ok st /\
    positions_opened (read_params []) reentry_bars (initial_state 10000)
    = (List.length (trades st) + open_positions st)%nat.
Proof.
  eexists. split; [vm_compute; reflexivity|].
  apply (opened_positions_accounted (read_params []) reentry_bars 10000).
  vm_compute. reflexivity.
Defined.

End BacktestMore.

Section BacktestTriggers.

Import Backtest Scenario.

(** One bar keeps the levels of the open position and closes trades only
    by their triggers. *)
Lemma loop_body_triggered (p : Params) (row : Bar) (st st' : LoopState) :
  loop_body p row st = Ok st' ->
  levels_set p st ->
  levels_set p st' /\
  exists new, trades st' = trades st ++ new /\ Forall (triggered p) new.
Proof.
  unfold loop_body, _process_signal, levels_set. intros H Hlv.
  destruct (position st) as [q|] eqn:Hpos.
  - destruct Hlv as (Hdir & Hnz & Hsl & Htp). rewrite Hdir in H.
    cbn [String.eqb Ascii.eqb Bool.eqb] in H.
    destruct (Qle_bool (price row) (stop_loss q)) eqn:Esl.
    + rewrite (py_div_ok (price row) _ Hnz) in H. cbn [bind] in H.
      injection H as <-. cbn [position trades]. split; [exact I|].
      eexists. split; [reflexivity|]. constructor; [|constructor].
      unfold triggered, closing_trade.
      cbn [t_entry_price t_exit_price pnl_pct reason].
      split; [exact Hnz|]. split; [reflexivity|]. left. split; [reflexivity|].
      apply Qle_bool_iff in Esl. now rewrite Hsl in Esl.
    + destruct (Qle_bool (take_profit q) (price row)) eqn:Etp.
      * rewrite (py_div_ok (price row) _ Hnz) in H. cbn [bind] in H.
        injection H as <-. cbn [position trades]. split; [exact I|].
        eexists. split; [reflexivity|]. constructor; [|constructor].
        unfold triggered, closing_trade.
        cbn [t_entry_price t_exit_price pnl_pct reason].
        split; [exact Hnz|]. split; [reflexivity|]. right. split; [reflexivity|].
        apply Qle_bool_false_inv in Esl. apply Qle_bool_iff in Etp.
        rewrite Hsl in Esl. rewrite Htp in Etp. split; assumption.
      * cbn [bind] in H. injection H as <-. cbn [position trades].
        split; [auto|]. exists []. split; [reflexivity | constructor].
  - destruct (String.eqb (action (signal row)) "BUY").
    + apply bind_inv in H as ([[b' pos'] new] & Hstep & [= <-]).
      apply bind_inv in Hstep as (r & Hr & [= <- <- <-]).
      apply py_div_inv in Hr as [Hnz _].
      cbn [position trades direction entry_price stop_loss take_profit].
      split; [auto|]. exists []. split; [reflexivity | constructor].
    + cbn [bind] in H. injection H as <-. cbn [position trades].
      split; [exact I|]. exists []. split; [reflexivity | constructor].
Qed.

Lemma backtest_loop_triggered (p : Params) (rows : list Bar) :
  forall st st', backtest_loop p rows st = Ok st' ->
  levels_set p st -> Forall (triggered p) (trades st) ->
  Forall (triggered p) (trades st').
Proof.
  induction rows as [|row rows IH]; intros st st' H Hlv Hall;
    cbn [backtest_loop] in H.
  - now injection H as <-.
  - apply bind_inv in H as (st1 & Hbody & Hrest).
    destruct (loop_body_triggered _ _ _ _ Hbody Hlv) as (Hlv1 & new & Ht & Hnew).
    apply (IH _ _ Hrest Hlv1). rewrite Ht. apply Forall_app. split; assumption.
Qed.

(** Every trade of a replay was closed by the trigger its reason names: a
    stop_loss trade at a price at or below the stop level of its entry, a
    take_profit trade at a price at or above the take level and above the
    stop level, so the stop is checked first; its pnl is the percentage
    change from its entry price to its exit price. *)
Theorem trades_closed_by_their_trigger (p : Params) (rows : list Bar)
    (initial_capital : Q) (st : LoopState) :
  backtest_loop p rows (initial_state initial_capital) = Ok st ->
  Forall (triggered p) (trades st).
Proof.
  intros H. apply (backtest_loop_triggered _ _ _ _ H); [exact I | constructor].
Qed.

Lemma trades_closed_by_their_trigger_witness :
  exists st,
    e2e_run 100 100 = Ok st /\
    Forall (triggered (read_params e2e_params)) (trades st).
Proof.
  eexists. split; [vm_compute; reflexivity|].
  apply (trades_closed_by_their_trigger (read_params e2e_params)
           (e2e_bars 100 100) 10000).
  vm_compute. reflexivity.
Defined.

Lemma loop_body_positive_entries (p : Params) (row : Bar) (st st' : LoopState) :
  0 < price row ->
  loop_body p row st = Ok st' ->
  match position st with Some q => 0 < entry_price q | None => True end ->
  Forall (fun t => 0 < t_entry_price t) (trades st) ->
  match position st' with Some q => 0 < entry_price q | None => True end /\
  Forall (fun t => 0 < t_entry_price t) (trades st').
Proof.
  intros Hp H Hpos Hall. unfold loop_body in H.
  apply bind_inv in H as ([[b' pos'] new] & Hstep & [= <-]).
  cbn [position trades]. apply process_signal_inv in Hstep.
  destruct (position st) as [q|].
  - destruct Hstep as [(-> & -> & _) | (-> & _ & _ & _ & t & -> & _ & _ & _ & He & _)].
    + split; [exact Hpos | now rewrite app_nil_r].
    + split; [exact I|]. apply Forall_app. split; [exact Hall|].
      constructor; [now rewrite He | constructor].
  - destruct Hstep as [-> [(_ & _ & _ & q & -> & _ & He & _) | (_ & -> & _)]];
      rewrite app_nil_r; split; auto. now rewrite He.
Qed.

Lemma backtest_loop_positive_entries (p : Params) (rows : list Bar) :
  Forall (fun row => 0 < price row) rows ->
  forall st st', backtest_loop p rows st = Ok st' ->
  match position st with Some q => 0 < entry_price q | None => True end ->
  Forall (fun t => 0 < t_entry_price t) (trades st) ->
  Forall (fun t => 0 < t_entry_price t) (trades st').
Proof.
  induction 1 as [|row rows Hrow _ IH]; intros st st' H Hpos Hall;
    cbn [backtest_loop] in H.
  - now injection H as <-.
  - apply bind_inv in H as (st1 & Hbody & Hrest).
    destruct (loop_body_positive_entries _ _ _ _ Hrow Hbody Hpos Hall) as [Hpos1 Hall1].
    exact (IH _ _ Hrest Hpos1 Hall1).
Qed.

Lemma pnl_at_most (entry exit_ level : Q) :
  0 < entry -> exit_ <= entry * (1 - level / 100) ->
  (exit_ / entry - 1) * 100 <= - level.
Proof.
  intros He Hx.
  assert (Hq : exit_ / entry <= 1 - level / 100).
  { apply Qle_shift_div_r; [exact He|]. rewrite Qmult_comm. exact Hx. }
  set (x := exit_ / entry) in *. clearbody x. clear Hx.
  unfold Qdiv in *. change (/ 100) with (1 # 100) in *. lra.
Qed.

Lemma pnl_at_least (entry exit_ level : Q) :
  0 < entry -> entry * (1 + level / 100) <= exit_ ->
  level <= (exit_ / entry - 1) * 100.
Proof.
  intros He Hx.
  assert (Hq : 1 + level / 100 <= exit_ / entry).
  { apply Qle_shift_div_l; [exact He|]. rewrite Qmult_comm. exact Hx. }
  set (x := exit_ / entry) in *. clearbody x. clear Hx.
  unfold Qdiv in *. change (/ 100) with (1 # 100) in *. lra.
Qed.

(** On bars with positive prices and with stop and take percentages that
    are not negative, a replay runs to the end, no stop_loss trade of its
    ledger shows a gain and no take_profit trade shows a loss. *)
Theorem trade_pnl_signs (p : Params) (rows : list Bar) (initial_capital : Q) :
  Forall (fun row => 0 < price row) rows ->
  0 <= sl_pct p -> 0 <= tp_pct p ->
  exists st,
    backtest_loop p rows (initial_state initial_capital) = Ok st /\
    Forall (fun t =>
              (reason t = "stop_loss"%string /\ pnl_pct t <= 0) \/
              (reason t = "take_profit"%string /\ 0 <= pnl_pct t))
           (trades st).
Proof.
  intros Hrows Hsl Htp.
  destruct (backtest_loop_total p rows) with (st := initial_state initial_capital)
    as (st & Hst).
  - apply Forall_forall. intros row Hin.
    pose proof (proj1 (Forall_forall _ _) Hrows row Hin) as Hpos. cbn beta in Hpos.
    intros E. rewrite E in Hpos. now apply Qlt_irrefl in Hpos.
  - exact I.
  - exists st. split; [exact Hst|].
    pose proof (backtest_loop_triggered _ _ _ _ Hst I (Forall_nil _)) as Htrig.
    pose proof (backtest_loop_positive_entries p rows Hrows _ _ Hst I (Forall_nil _))
      as Hentries.
    apply Forall_forall. intros t Hin.
    pose proof (proj1 (Forall_forall _ _) Htrig t Hin) as (_ & Hpnl & Hcase).
    pose proof (proj1 (Forall_forall _ _) Hentries t Hin) as He. cbn beta in He.
    rewrite Hpnl. destruct Hcase as [[Hr Hx] | (Hr & _ & Hx)].
    + left. split; [exact Hr|].
      pose proof (pnl_at_most _ _ _ He Hx). lra.
    + right. split; [exact Hr|].
      pose proof (pnl_at_least _ _ _ He Hx). lra.
Qed.

Lemma trade_pnl_signs_witness :
  exists st,
    backtest_loop (read_params e2e_params) (e2e_bars 100 100) (initial_state 10000)
      = Ok st /\
    Forall (fun t =>
              (reason t = "stop_loss"%string /\ pnl_pct t <= 0) \/
              (reason t = "take_profit"%string /\ 0 <= pnl_pct t))
           (trades st).
Proof.
  apply (trade_pnl_signs (read_params e2e_params) (e2e_bars 100 100) 10000).
  - repeat constructor.
  - discriminate.
  - discriminate.
Defined.

End BacktestTriggers.

Section MetricsMore.

Import Backtest Scenario.

Lemma filter_partition_length {A : Type} (f : A -> bool) (l : list A) :
  (List.length (filter (fun x => negb (f x)) l) + List.length (filter f l)
   = List.length l)%nat.
Proof.
  induction l as [|x l IH]; cbn [filter List.length]; [reflexivity|].
  destruct (f x); cbn [negb List.length]; lia.
Qed.

Lemma filter_length_le {A : Type} (f : A -> bool) (l : list A) :
  (List.length (filter f l) <= List.length l)%nat.
Proof.
  induction l as [|x l IH]; cbn [filter List.length]; [lia|].
  destruct (f x); cbn [List.length]; lia.
Qed.

Lemma inject_nat_le (a b : nat) :
  (a <= b)%nat -> inject_Z (Z.of_nat a) <= inject_Z (Z.of_nat b).
Proof. intros H. rewrite <- Zle_Qle. lia. Qed.

(** Whenever the metrics are computed, winners and losers split the ledger:
    their counts add up to the number of trades, which is the length of the
    ledger, and the win rate lies between 0 and 1. *)
Theorem metrics_counts (initial_capital final_balance : Q)
    (trades : list Trade) (equity_curve : list EquityPoint) (m : Metrics) :
  _calculate_performance_metrics initial_capital final_balance trades equity_curve
    = Ok m ->
  (winning_trades m + losing_trades m = total_trades m)%nat /\
  total_trades m = List.length trades /\
  0 <= win_rate m <= 1.
Proof.
  unfold _calculate_performance_metrics. destruct trades as [|t ts].
  - intros [= <-]. cbn. repeat split; try reflexivity; discriminate.
  - set (trades := t :: ts). intros H.
    apply bind_inv in H as (r & _ & H).
    apply bind_inv in H as (w & Hw & H).
    apply bind_inv in H as (pf & _ & H).
    apply bind_inv in H as (u & _ & [= <-]).
    cbn [winning_trades losing_trades total_trades win_rate].
    split; [|split; [reflexivity|]].
    + exact (filter_partition_length is_losing trades).
    + unfold len_ratio in Hw. apply py_div_inv in Hw as [_ ->].
      assert (Hlen : 0 < inject_Z (Z.of_nat (List.length trades))).
      { change 0 with (inject_Z 0). rewrite <- Zlt_Qlt. cbn [trades List.length]. lia. }
      pose proof (inject_nat_le _ _ (filter_length_le is_winning trades)) as Hle.
      assert (H0 : 0 <= inject_Z (Z.of_nat (List.length (filter is_winning trades)))).
      { change 0 with (inject_Z 0). rewrite <- Zle_Qle. lia. }
      split.
      * apply Qle_shift_div_l; [exact Hlen|]. lra.
      * apply Qle_shift_div_r; [exact Hlen|]. lra.
Qed.

Lemma metrics_counts_witness :
  exists m,
    _calculate_performance_metrics 10000 10100 [flat_trade; flat_trade]
      [mkEquityPoint 0 10000; mkEquityPoint 1 10100] = Ok m /\
    (winning_trades m + losing_trades m = total_trades m)%nat /\
    total_trades m = 2%nat /\
    0 <= win_rate m <= 1.
Proof.
  eexists. split; [vm_compute; reflexivity|].
  apply (metrics_counts 10000 10100 [flat_trade; flat_trade]
           [mkEquityPoint 0 10000; mkEquityPoint 1 10100]).
  vm_compute. reflexivity.
Defined.

End MetricsMore.

(** ** The risk manager's helpers *)

Section RiskMore.

Import Risk.

Lemma Qabs_pos_eq (x : Q) : 0 <= x -> Qabs x == x.
Proof. intros H. now rewrite Qabs_pos. Qed.

Lemma Qabs_neg_eq (x : Q) : x <= 0 -> Qabs x == - x.
Proof. intros H. now rewrite Qabs_neg. Qed.

(** The risked distance between a positive entry price and the manager's own
    stop is 5% of the entry price for BUY and for SELL. *)
Lemma stop_distance (self : RiskManager) (symbol action : string) (entry_price : Q) :
  0 < entry_price ->
  action = "BUY"%string \/ action = "SELL"%string ->
  Qabs (entry_price - calculate_stop_loss self symbol entry_price action)
  == entry_price * (5 # 100).
Proof.
  intros He [-> | ->]; unfold calculate_stop_loss; cbn [String.eqb Ascii.eqb Bool.eqb].
  - rewrite Qabs_pos_eq; lra.
  - rewrite Qabs_neg_eq; lra.
Qed.

Lemma position_value_at_own_stop (self : RiskManager) (symbol action : string)
    (entry_price : Q) :
  0 < entry_price ->
  action = "BUY"%string \/ action = "SELL"%string ->
  exists quantity,
    calculate_position_size self
      (calculate_stop_loss self symbol entry_price action) entry_price
    = Ok quantity /\
    quantity * entry_price
    == account_balance self * max_risk_per_trade self * 20.
Proof.
  intros He Hact.
  pose proof (stop_distance self symbol action entry_price He Hact) as Hd.
  unfold calculate_position_size.
  rewrite Qle_bool_false by (rewrite Hd; lra). cbn [negb].
  rewrite py_div_ok by (rewrite Hd; lra).
  eexists. split; [reflexivity|].
  rewrite Hd. field. lra.
Qed.

(** The manager's stop is on the losing side of a positive entry price:
    below it for a BUY, above it for a SELL, and equal to it for any other
    action, in which case the sizing fails closed with quantity 0.  For a BUY
    or a SELL the sized position is worth twenty times the risked amount at
    the entry price. *)
Theorem stop_loss_and_sizing (self : RiskManager) (symbol action : string)
    (entry_price : Q) :
  0 < entry_price ->
  (action = "BUY"%string ->
   calculate_stop_loss self symbol entry_price action < entry_price) /\
  (action = "SELL"%string ->
   entry_price < calculate_stop_loss self symbol entry_price action) /\
  (action <> "BUY"%string -> action <> "SELL"%string ->
   calculate_position_size self
     (calculate_stop_loss self symbol entry_price action) entry_price = Ok 0) /\
  (action = "BUY"%string \/ action = "SELL"%string ->
   exists quantity,
     calculate_position_size self
       (calculate_stop_loss self symbol entry_price action) entry_price
     = Ok quantity /\
     quantity * entry_price
     == account_balance self * max_risk_per_trade self * 20).
Proof.
  intros He. split; [|split; [|split]].
  - intros ->. unfold calculate_stop_loss. cbn [String.eqb Ascii.eqb Bool.eqb]. lra.
  - intros ->. unfold calculate_stop_loss. cbn [String.eqb Ascii.eqb Bool.eqb]. lra.
  - intros Hb Hs. unfold calculate_stop_loss.
    apply String.eqb_neq in Hb, Hs. rewrite Hb, Hs.
    unfold calculate_position_size.
    rewrite Qle_bool_true; [reflexivity|].
    rewrite Qabs_pos_eq; lra.
  - now apply position_value_at_own_stop.
Qed.

Lemma stop_loss_and_sizing_witness :
  exists quantity,
    calculate_position_size (init 10000)
      (calculate_stop_loss (init 10000) "BTC/USDT" 50000 "BUY") 50000
    = Ok quantity /\
    quantity * 50000
    == account_balance (init 10000) * max_risk_per_trade (init 10000) * 20.
Proof.
  assert (H : 0 < 50000) by reflexivity.
  exact (proj2 (proj2 (proj2
           (stop_loss_and_sizing (init 10000) "BTC/USDT" "BUY" 50000 H)))
           (or_introl eq_refl)).
Defined.

(** A manager built by [__init__] on a positive balance sizes, against its
    own stop, a BUY or SELL position worth 40% of the balance at the entry
    price: more than its own position limit for any symbol. *)
Theorem sized_position_exceeds_limit (balance entry_price : Q)
    (symbol action : string) :
  0 < balance -> 0 < entry_price ->
  action = "BUY"%string \/ action = "SELL"%string ->
  exists quantity,
    calculate_position_size (init balance)
      (calculate_stop_loss (init balance) symbol entry_price action) entry_price
    = Ok quantity /\
    quantity * entry_price == balance * (4 # 10) /\
    get_position_limit (init balance) symbol < quantity * entry_price.
Proof.
  intros Hb He Hact.
  destruct (position_value_at_own_stop (init balance) symbol action entry_price
              He Hact) as (quantity & Hq & Hv).
  exists quantity. split; [exact Hq|].
  cbn [init account_balance max_risk_per_trade] in Hv.
  assert (Hv' : quantity * entry_price == balance * (4 # 10)) by (rewrite Hv; ring).
  split; [exact Hv'|].
  rewrite Hv'. unfold get_position_limit. cbn [init account_balance].
  destruct (String.eqb symbol "BTC/USDT"); lra.
Qed.

Lemma sized_position_exceeds_limit_witness :
  exists quantity,
    calculate_position_size (init 10000)
      (calculate_stop_loss (init 10000) "ETH/USDT" 2000 "SELL") 2000
    = Ok quantity /\
    quantity * 2000 == 10000 * (4 # 10) /\
    get_position_limit (init 10000) "ETH/USDT" < quantity * 2000.
Proof.
  assert (H1 : 0 < 10000) by reflexivity.
  assert (H2 : 0 < 2000) by reflexivity.
  exact (sized_position_exceeds_limit 10000 2000 "ETH/USDT" "SELL" H1 H2
           (or_intror eq_refl)).
Defined.

End RiskMore.

(** ** Signal generation *)

Section SignalGenMore.

Import SignalGen.

Context {Indicators : Type}.

Lemma prediction_to_signal_cases (cfg : option StrategyConfig) (pr : Prediction) :
  let direction := match p_direction pr with Some d => d | None => 0 end in
  let confidence := match p_confidence pr with Some c => c | None => 1 # 2 end in
  snd (_prediction_to_signal cfg pr) = confidence /\
  ((fst (_prediction_to_signal cfg pr) = "BUY"%string /\
    0 < direction /\ get_buy_threshold cfg <= confidence)
   \/ (fst (_prediction_to_signal cfg pr) = "SELL"%string /\
       direction < 0 /\ get_sell_threshold cfg <= confidence)
   \/ fst (_prediction_to_signal cfg pr) = "HOLD"%string).
Proof.
  cbn zeta. unfold _prediction_to_signal.
  destruct (Qle_bool _ 0) eqn:Hd; cbn [negb andb].
  - destruct (Qle_bool 0 _) eqn:Hd'; cbn [negb andb]; [cbn; auto|].
    destruct (Qle_bool (get_sell_threshold cfg) _) eqn:Hs; cbn [fst snd]; [|auto].
    split; [reflexivity|]. right; left.
    apply Qle_bool_false_inv in Hd'. apply Qle_bool_iff in Hs. auto.
  - destruct (Qle_bool (get_buy_threshold cfg) _) eqn:Hb; cbn [fst snd].
    + split; [reflexivity|]. left.
      apply Qle_bool_false_inv in Hd. apply Qle_bool_iff in Hb. auto.
    + destruct (Qle_bool 0 _) eqn:Hd'; cbn [negb andb]; [cbn; auto|].
      destruct (Qle_bool (get_sell_threshold cfg) _) eqn:Hs; cbn [fst snd]; [|auto].
      split; [reflexivity|]. right; left.
      apply Qle_bool_false_inv in Hd'. apply Qle_bool_iff in Hs. auto.
Qed.

(** The two ways [generate_signal] ends: with the safe default, or with the
    signal read off a prediction that the models manager returned. *)
Lemma generate_signal_cases (self : SignalGenerator Indicators) (other_truth : bool)
    (now_data now : Z) (symbol : string) (market_data : dict entry) :
  generate_signal self other_truth now_data now symbol market_data
    = _create_signal_dict now symbol "HOLD" (1 # 2)
  \/ exists predict features prediction,
       models_manager self = Some predict /\
       predict symbol features = Ok (Some prediction) /\
       generate_signal self other_truth now_data now symbol market_data
       = _create_signal_dict now symbol
           (fst (_prediction_to_signal (config self) prediction))
           (snd (_prediction_to_signal (config self) prediction)).
Proof.
  unfold generate_signal.
  destruct market_data as [|kv md]; [now left|].
  destruct (models_manager self) as [predict|]; [|now left].
  destruct (negb (entry_truthy _ _)); [now left|].
  destruct (_extract_features self _) as [features|e]; [|now left].
  cbn [features_empty].
  destruct (predict symbol features) as [[prediction|]|e] eqn:Hp; try now left.
  right. exists predict, features, prediction.
  split; [reflexivity|]. split; [exact Hp|].
  destruct (_prediction_to_signal (config self) prediction). reflexivity.
Qed.

(** [generate_signal] answers with the safe default, HOLD at confidence 0.5,
    whenever the market data is empty, there is no models manager, the
    symbol's entry is missing or empty, or the models manager raises or
    returns something that is not a prediction dict. *)
Theorem generate_signal_safe_default (self : SignalGenerator Indicators)
    (other_truth : bool) (now_data now : Z) (symbol : string)
    (market_data : dict entry) :
  market_data = []
  \/ models_manager self = None
  \/ entry_truthy other_truth (dict_get symbol market_data) = false
  \/ (forall predict features prediction,
        models_manager self = Some predict ->
        predict symbol features <> Ok (Some prediction)) ->
  generate_signal self other_truth now_data now symbol market_data
  = _create_signal_dict now symbol "HOLD" (1 # 2).
Proof.
  intros [-> | [Hm | [He | Hp]]].
  - reflexivity.
  - unfold generate_signal. rewrite Hm. now destruct market_data.
  - unfold generate_signal. rewrite He.
    destruct market_data; [reflexivity|]. now destruct (models_manager self).
  - destruct (generate_signal_cases self other_truth now_data now symbol market_data)
      as [H | (predict & features & prediction & Hm & Hpred & _)]; [exact H|].
    now contradiction (Hp predict features prediction Hm).
Qed.




(** With buy and sell thresholds of at least 0.6, as by default, every BUY
    or SELL signal that the generator produces passes the risk manager's
    [validate_signal]; the safe default signal does not. *)
Theorem traded_signals_pass_validation (self : SignalGenerator Indicators)
    (rm : Risk.RiskManager) (other_truth : bool) (now_data now : Z)
    (symbol : string) (market_data : dict entry) :
  6 # 10 <= get_buy_threshold (config self) ->
  6 # 10 <= get_sell_threshold (config self) ->
  (sd_action (generate_signal self other_truth now_data now symbol market_data)
     <> "HOLD"%string ->
   Risk.validate_signal rm
     (Risk.SignalDict
        (Some (sd_confidence
                 (generate_signal self other_truth now_data now symbol market_data))))
   = true) /\
  Risk.validate_signal rm
    (Risk.SignalDict
       (Some (sd_confidence (_create_signal_dict now symbol "HOLD" (1 # 2)))))
  = false.
Proof.
  intros Hb Hs. split; [|reflexivity].
  destruct (generate_signal_cases self other_truth now_data now symbol market_data)
    as [-> | (predict & features & prediction & Hm & Hpred & ->)];
    cbn [_create_signal_dict sd_action sd_confidence].
  - intros H. now contradiction H.
  - intros Hact.
    destruct (prediction_to_signal_cases (config self) prediction) as [Hc Hcases].
    cbn zeta in Hc, Hcases. unfold Risk.validate_signal.
    rewrite Qle_bool_true; [reflexivity|].
    rewrite Hc. destruct Hcases as [(_ & _ & Ht) | [(_ & _ & Ht) | Hh]].
    + lra.
    + lra.
    + contradiction.
Qed.

End SignalGenMore.

Section SignalGenWitness.

Import SignalGen.

Lemma generate_signal_safe_default_witness :
  generate_signal Scenario.failing_generator true 0 7 "BTC/USDT"
    Scenario.snapshot_with_history
  = _create_signal_dict 7 "BTC/USDT" "HOLD" (1 # 2).
Proof.
  apply (generate_signal_safe_default Scenario.failing_generator true 0 7
           "BTC/USDT" Scenario.snapshot_with_history).
  right. right. right. intros predict features prediction [= <-]. discriminate.
Defined.


Lemma traded_signals_pass_validation_witness :
  Risk.validate_signal (Risk.init 10000)
    (Risk.SignalDict
       (Some (sd_confidence
                (generate_signal Scenario.bullish_generator true 0 7 "BTC/USDT"
                   Scenario.snapshot_without_history))))
  = true.
Proof.
  assert (H : 6 # 10 <= 6 # 10) by (apply Qle_refl).
  apply (proj1 (traded_signals_pass_validation Scenario.bullish_generator
                  (Risk.init 10000) true 0 7 "BTC/USDT"
                  Scenario.snapshot_without_history H H)).
  vm_compute. discriminate.
Defined.

End SignalGenWitness.

(** ** The trader's controls *)

Section TraderMore.

Import Trader.

(** A trader whose state is [error] ignores [stop], [pause] and [resume]
    and its loop runs no cycle, whatever the notification service; only
    [start] brings it back to [active], spawning a new loop thread. *)
Theorem error_state_left_only_by_start (self : TraderBase) :
  state self = "error"%string ->
  stop self = self /\
  pause self = self /\
  resume self = self /\
  (forall notification_service cycles,
     _trading_loop notification_service cycles self = (self, Ok tt)) /\
  start self = (set_state "active" self, true).
Proof.
  intros H. unfold stop, pause, resume, start. rewrite H.
  cbn [String.eqb Ascii.eqb Bool.eqb negb].
  repeat split; try reflexivity.
  intros notification_service cycles. apply trading_loop_inactive.
  rewrite H. discriminate.
Qed.

Lemma error_state_left_only_by_start_witness :
  stop (fst (_trading_loop Scenario.delivering_notifications
               [Scenario.failing_cycle; good_cycle] started))
    = fst (_trading_loop Scenario.delivering_notifications
             [Scenario.failing_cycle; good_cycle] started) /\
  start (fst (_trading_loop Scenario.delivering_notifications
                [Scenario.failing_cycle; good_cycle] started))
    = (set_state "active"
         (fst (_trading_loop Scenario.delivering_notifications
                 [Scenario.failing_cycle; good_cycle] started)), true).
Proof.
  assert (H : state (fst (_trading_loop Scenario.delivering_notifications
                            [Scenario.failing_cycle; good_cycle] started))
              = "error"%string) by reflexivity.
  pose proof (error_state_left_only_by_start _ H) as (H1 & _ & _ & _ & H5).
  split; [exact H1 | exact H5].
Defined.

(** Pausing an active trader and resuming it gives the trader back; while it
    is paused the loop runs no cycle, [stop] does nothing, so a paused trader
    cannot be stopped, and [start] spawns another loop thread. *)
Theorem pause_resume (self : TraderBase) :
  state self = "active"%string ->
  resume (pause self) = self /\
  state (pause self) = "paused"%string /\
  (forall notification_service cycles,
     _trading_loop notification_service cycles (pause self) = (pause self, Ok tt)) /\
  stop (pause self) = pause self /\
  start (pause self) = (self, true).
Proof.
  intros H. unfold pause. rewrite H. cbn [String.eqb Ascii.eqb Bool.eqb negb].
  unfold resume, stop, start. cbn [set_state state String.eqb Ascii.eqb Bool.eqb negb].
  destruct self as [s l n c]. cbn [state error_log notifications cycles_started] in *.
  subst s. repeat split; try reflexivity.
  intros notification_service cycles. apply trading_loop_inactive.
  cbn [state]. discriminate.
Qed.

Lemma pause_resume_witness :
  resume (pause started) = started /\ stop (pause started) = pause started.
Proof.
  assert (H : state started = "active"%string) by reflexivity.
  pose proof (pause_resume started H) as (H1 & _ & _ & H4 & _).
  split; [exact H1 | exact H4].
Defined.

End TraderMore.

(** ** Paper trading *)

Section PaperFacts.

Import Paper.

Lemma dict_set_absent {V : Type} (k : string) (v : V) (d : dict V) :
  dict_get k d = None -> dict_set k v d = d ++ [(k, v)].
Proof.
  induction d as [|[k0 v0] d IH]; cbn [dict_get dict_set app]; [reflexivity|].
  destruct (String.eqb k k0); [discriminate|]. intros H. now rewrite IH.
Qed.

Lemma dict_pop_set_absent {V : Type} (k : string) (v : V) (d : dict V) :
  dict_get k d = None -> snd (dict_pop k (dict_set k v d)) = d.
Proof.
  induction d as [|[k0 v0] d IH]; cbn [dict_get dict_set dict_pop].
  - intros _. now rewrite String.eqb_refl.
  - destruct (String.eqb k k0) eqn:E; [discriminate|]. intros H.
    cbn [dict_pop]. rewrite E. specialize (IH H).
    destruct (dict_pop k (dict_set k v d)) as [r d'']. cbn [snd] in *. now rewrite IH.
Qed.

Lemma dict_get_In {V : Type} (k : string) (v : V) (d : dict V) :
  dict_get k d = Some v -> In (k, v) d.
Proof.
  induction d as [|[k0 v0] d IH]; cbn [dict_get]; [discriminate|].
  destruct (String.eqb k k0) eqn:E.
  - apply String.eqb_eq in E. subst k0. intros [= ->]. now left.
  - intros H. right. now apply IH.
Qed.

Lemma Forall_dict_set {V : Type} (P : string * V -> Prop) (k : string) (v : V)
    (d : dict V) :
  Forall P d -> P (k, v) -> Forall P (dict_set k v d).
Proof.
  intros Hd Hv. induction Hd as [|[k0 v0] d H0 Hd IH]; cbn [dict_set].
  - now constructor.
  - destruct (String.eqb k k0); constructor; assumption.
Qed.

Lemma Forall_dict_pop {V : Type} (P : string * V -> Prop) (k : string) (d : dict V) :
  Forall P d -> Forall P (snd (dict_pop k d)).
Proof.
  intros Hd. induction Hd as [|[k0 v0] d H0 Hd IH]; cbn [dict_pop snd]; [constructor|].
  destruct (String.eqb k k0); [exact Hd|].
  destruct (dict_pop k d) as [r d'']. cbn [snd] in *. now constructor.
Qed.

(** The value at which [calculate_equity] counts a position. *)
Lemma equity_fold (l : dict PaperPosition) (acc : Q) :
  fold_left (fun equity kv => equity + amount (snd kv) * entry_price (snd kv)) l acc
  == acc + Qsum (fun kv => amount (snd kv) * entry_price (snd kv)) l.
Proof.
  revert acc. induction l as [|kv l IH]; intros acc; cbn [fold_left Qsum].
  - ring.
  - rewrite IH. ring.
Qed.

Lemma calculate_equity_sum (self : PaperTradeMode) :
  calculate_equity self
  == balance self
     + Qsum (fun kv => amount (snd kv) * entry_price (snd kv)) (positions self).
Proof. unfold calculate_equity. apply equity_fold. Qed.

(** What a BUY that goes through does to the state. *)
Lemma execute_buy (prices : string -> result Q) (now_entry now_logged : Z)
    (sym : string) (self : PaperTradeMode) (p : Q) :
  dict_get sym (positions self) = None ->
  prices sym = Ok p -> ~ p == 0 ->
  let position_size :=
    balance self * config_get position_size_pct 20 (config self) / 100 in
  let commission :=
    position_size * config_get fee_percentage (1 # 10) (config self) / 100 in
  position_size + commission <= balance self ->
  execute_trade prices now_entry now_logged (mkPaperSignal sym "BUY") self
  = {| config := config self;
       positions :=
         positions self
         ++ [(sym, {| entry_time := now_entry; entry_price := p;
                      amount := position_size / p; size := position_size;
                      direction := "long" |})];
       balance := balance self - (position_size + commission);
       trade_history :=
         trade_history self
         ++ [ {| h_time := now_logged; h_symbol := sym; h_action := "BUY";
                 h_price := p; h_amount := position_size / p; h_pnl_pct := None;
                 h_balance_after := balance self - (position_size + commission) |} ] |}.
Proof.
  intros Hnone Hp Hnz position_size commission Hfunds.
  unfold execute_trade, try_execute_trade.
  cbn [action symbol String.eqb Ascii.eqb Bool.eqb].
  rewrite Hp. cbn [bind]. rewrite Hnone.
  fold position_size. rewrite (py_div_ok position_size p Hnz). cbn [bind].
  fold commission. rewrite (Qle_bool_true _ _ Hfunds). cbn [negb].
  now rewrite (dict_set_absent _ _ _ Hnone).
Qed.

(** What a SELL of a long position does to the state. *)
Lemma execute_sell (prices : string -> result Q) (now_entry now_logged : Z)
    (sym : string) (self : PaperTradeMode) (pos : PaperPosition) (p : Q) :
  dict_get sym (positions self) = Some pos ->
  direction pos = "long"%string -> ~ entry_price pos == 0 ->
  prices sym = Ok p ->
  let current_value := amount pos * p in
  let commission :=
    current_value * config_get fee_percentage (1 # 10) (config self) / 100 in
  execute_trade prices now_entry now_logged (mkPaperSignal sym "SELL") self
  = {| config := config self;
       positions := snd (dict_pop sym (positions self));
       balance := balance self + (current_value - commission);
       trade_history :=
         trade_history self
         ++ [ {| h_time := now_logged; h_symbol := sym; h_action := "SELL";
                 h_price := p; h_amount := amount pos;
                 h_pnl_pct := Some ((p / entry_price pos - 1) * 100);
                 h_balance_after := balance self + (current_value - commission) |} ] |}.
Proof.
  intros Hpos Hdir Hnz Hp current_value commission.
  unfold execute_trade, try_execute_trade.
  cbn [action symbol String.eqb Ascii.eqb Bool.eqb].
  rewrite Hp. cbn [bind]. rewrite Hpos, Hdir.
  cbn [String.eqb Ascii.eqb Bool.eqb andb].
  rewrite (py_div_ok p _ Hnz). cbn [bind]. reflexivity.
Qed.

End PaperFacts.

Section PaperClaims.

Import Paper.

(** In paper mode a BUY that goes through and the SELL that closes it
    reconcile: the balance ends at what it was, plus the realized profit
    [amount * (exit - entry)], minus the two commissions; the position is
    gone and two entries were added to the history. *)
Theorem paper_round_trip (prices1 prices2 : string -> result Q)
    (t1 t1' t2 t2' : Z) (sym : string) (self : PaperTradeMode) (p1 p2 : Q) :
  dict_get sym (positions self) = None ->
  prices1 sym = Ok p1 -> ~ p1 == 0 ->
  prices2 sym = Ok p2 ->
  let fee := config_get fee_percentage (1 # 10) (config self) in
  let position_size :=
    balance self * config_get position_size_pct 20 (config self) / 100 in
  let position_amount := position_size / p1 in
  position_size + position_size * fee / 100 <= balance self ->
  let closed :=
    execute_trade prices2 t2 t2' (mkPaperSignal sym "SELL")
      (execute_trade prices1 t1 t1' (mkPaperSignal sym "BUY") self) in
  balance closed
    == balance self + position_amount * (p2 - p1)
       - position_size * fee / 100 - position_amount * p2 * fee / 100 /\
  positions closed = positions self /\
  List.length (trade_history closed) = (List.length (trade_history self) + 2)%nat.
Proof.
  intros Hnone Hp1 Hnz Hp2 fee position_size position_amount Hfunds closed.
  subst closed.
  rewrite (execute_buy prices1 t1 t1' sym self p1 Hnone Hp1 Hnz Hfunds).
  fold position_size. fold fee.
  erewrite execute_sell;
    [ | cbn [positions]; rewrite <- (dict_set_absent _ _ _ Hnone);
        apply dict_get_set_same
      | reflexivity | exact Hnz | exact Hp2 ].
  cbn [balance positions trade_history config amount entry_price].
  fold fee. fold position_amount. split; [|split].
  - assert (Hsize : position_amount * p1 == position_size).
    { unfold position_amount. field. exact Hnz. }
    rewrite <- Hsize. unfold Qdiv. ring.
  - rewrite <- (dict_set_absent _ _ _ Hnone). now apply dict_pop_set_absent.
  - rewrite !length_app. cbn [List.length]. lia.
Qed.

Lemma paper_round_trip_witness :
  balance (run_calls Scenario.paper_calls (init None))
    == 10000 + (10000 * 20 / 100 / 100) * (110 - 100)
       - (10000 * 20 / 100) * (1 # 10) / 100
       - (10000 * 20 / 100 / 100) * 110 * (1 # 10) / 100 /\
  positions (run_calls Scenario.paper_calls (init None)) = positions (init None) /\
  List.length (trade_history (run_calls Scenario.paper_calls (init None)))
    = (List.length (trade_history (init None)) + 2)%nat.
Proof.
  apply (paper_round_trip (Scenario.quote 100) (Scenario.quote 110) 0 0 5 5
           "BTC/USDT" (init None) 100 110).
  - reflexivity.
  - reflexivity.
  - intro; discriminate.
  - reflexivity.
  - vm_compute. discriminate.
Defined.

(** Equity, which counts open positions at their entry price, moves only by
    commissions and realized profit: a BUY that goes through lowers it by
    the entry commission, and a SELL changes it by the realized profit minus
    the exit commission. *)
Theorem paper_equity_changes (prices : string -> result Q) (t t' : Z)
    (sym : string) (self : PaperTradeMode) (p : Q) :
  prices sym = Ok p ->
  let fee := config_get fee_percentage (1 # 10) (config self) in
  let position_size :=
    balance self * config_get position_size_pct 20 (config self) / 100 in
  (dict_get sym (positions self) = None -> ~ p == 0 ->
   position_size + position_size * fee / 100 <= balance self ->
   calculate_equity (execute_trade prices t t' (mkPaperSignal sym "BUY") self)
   == calculate_equity self - position_size * fee / 100) /\
  (forall pos,
     dict_get sym (positions self) = Some pos ->
     direction pos = "long"%string -> ~ entry_price pos == 0 ->
     calculate_equity (execute_trade prices t t' (mkPaperSignal sym "SELL") self)
     == calculate_equity self + amount pos * (p - entry_price pos)
        - amount pos * p * fee / 100).
Proof.
  intros Hp fee position_size. split.
  - intros Hnone Hnz Hfunds.
    rewrite (execute_buy prices t t' sym self p Hnone Hp Hnz Hfunds).
    rewrite !calculate_equity_sum. cbn [balance positions].
    rewrite Qsum_app. cbn [Qsum snd amount entry_price].
    fold position_size. fold fee.
    assert (Hsize : position_size / p * p == position_size) by (field; exact Hnz).
    rewrite Hsize. ring.
  - intros pos Hpos Hdir Hnz.
    rewrite (execute_sell prices t t' sym self pos p Hpos Hdir Hnz Hp).
    rewrite !calculate_equity_sum. cbn [balance positions config]. fold fee.
    assert (Hsum : forall d : dict PaperPosition,
              dict_get sym d = Some pos ->
              Qsum (fun kv => amount (snd kv) * entry_price (snd kv)) d
              == amount pos * entry_price pos
                 + Qsum (fun kv => amount (snd kv) * entry_price (snd kv))
                     (snd (dict_pop sym d))).
    { clear. induction d as [|[k0 v0] d IH]; cbn [dict_get dict_pop]; [discriminate|].
      destruct (String.eqb sym k0).
      - intros [= ->]. cbn [snd Qsum]. ring.
      - intros H. specialize (IH H).
        destruct (dict_pop sym d) as [r d'']. cbn [snd Qsum] in *. rewrite IH. ring. }
    rewrite (Hsum _ Hpos). ring.
Qed.

Lemma paper_equity_changes_witness :
  calculate_equity
    (execute_trade (Scenario.quote 100) 0 0 (mkPaperSignal "BTC/USDT" "BUY")
       (init None))
  == calculate_equity (init None) - (10000 * 20 / 100) * (1 # 10) / 100.
Proof.
  assert (Hp : Scenario.quote 100 "BTC/USDT"%string = Ok 100) by reflexivity.
  apply (proj1 (paper_equity_changes (Scenario.quote 100) 0 0 "BTC/USDT"
                  (init None) 100 Hp)).
  - reflexivity.
  - intro; discriminate.
  - vm_compute. discriminate.
Defined.

(** The calls that change nothing: a HOLD, a price lookup that raises, a BUY
    quoted at price zero, a BUY while the symbol has a position, a SELL
    while it has none, and any other action. *)
Theorem paper_no_ops (prices : string -> result Q) (t t' : Z)
    (signal : PaperSignal) (self : PaperTradeMode) :
  action signal = "HOLD"%string
  \/ (exists e, prices (symbol signal) = Raise e)
  \/ (action signal = "BUY"%string /\ exists p, prices (symbol signal) = Ok p /\ p == 0)
  \/ (action signal = "BUY"%string /\ dict_get (symbol signal) (positions self) <> None)
  \/ (action signal = "SELL"%string /\ dict_get (symbol signal) (positions self) = None)
  \/ (action signal <> "BUY"%string /\ action signal <> "SELL"%string) ->
  execute_trade prices t t' signal self = self.
Proof.
  unfold execute_trade, try_execute_trade.
  intros [H | [(e & H) | [(Ha & p & Hp & Hz) | [(Ha & Hpos) | [(Ha & Hpos) | (Hb & Hs)]]]]].
  - rewrite H. reflexivity.
  - destruct (String.eqb (action signal) "HOLD"); [reflexivity|]. now rewrite H.
  - rewrite Ha, Hp. cbn [String.eqb Ascii.eqb Bool.eqb bind].
    destruct (dict_get (symbol signal) (positions self)); [reflexivity|].
    unfold py_div. apply Qeq_bool_iff in Hz. now rewrite Hz.
  - rewrite Ha. cbn [String.eqb Ascii.eqb Bool.eqb].
    destruct (prices (symbol signal)); cbn [bind]; [|reflexivity].
    destruct (dict_get (symbol signal) (positions self)); [reflexivity|].
    now contradiction Hpos.
  - rewrite Ha, Hpos. cbn [String.eqb Ascii.eqb Bool.eqb].
    destruct (prices (symbol signal)); reflexivity.
  - apply String.eqb_neq in Hb, Hs. rewrite Hb, Hs.
    destruct (String.eqb (action signal) "HOLD"); [reflexivity|].
    destruct (prices (symbol signal)); cbn [bind]; [|reflexivity].
    destruct (dict_get (symbol signal) (positions self)); reflexivity.
Qed.

Lemma paper_no_ops_witness :
  execute_trade (fun _ => Raise (KeyError "ticker")) 0 0
    (mkPaperSignal "BTC/USDT" "BUY") (init None)
  = init None.
Proof.
  apply (paper_no_ops (fun _ => Raise (KeyError "ticker")) 0 0
           (mkPaperSignal "BTC/USDT" "BUY") (init None)).
  right. left. exists (KeyError "ticker"). reflexivity.
Defined.

End PaperClaims.

Section PaperInvariants.

Import Paper.

Lemma Qdiv100_nonneg (x : Q) : 0 <= x -> 0 <= x / 100.
Proof.
  intros H. unfold Qdiv. change (/ 100) with (1 # 100).
  apply Qmult_le_0_compat; [exact H | discriminate].
Qed.

Lemma net_of_fee_nonneg (v fee : Q) : 0 <= v -> fee <= 100 -> 0 <= v - v * fee / 100.
Proof.
  intros Hv Hfee.
  assert (H : 0 <= v * (1 - fee * (1 # 100))).
  { apply Qmult_le_0_compat; [exact Hv | lra]. }
  unfold Qdiv. change (/ 100) with (1 # 100).
  assert (E : v - v * fee * (1 # 100) == v * (1 - fee * (1 # 100))) by ring.
  rewrite E. exact H.
Qed.

(** One call keeps the configuration, a non-negative balance and
    non-negative amounts. *)
Lemma run_call_invariant (c : Call) (self : PaperTradeMode) :
  sane_config (config self) -> quotes_nonnegative c ->
  0 <= balance self -> amounts_nonnegative (positions self) ->
  config (run_call c self) = config self /\
  0 <= balance (run_call c self) /\
  amounts_nonnegative (positions (run_call c self)).
Proof.
  intros (Hpct & Hfee0 & Hfee) Hq Hbal Hamt.
  unfold run_call, execute_trade.
  destruct (String.eqb (action (c_signal c)) "HOLD"); [auto|].
  unfold try_execute_trade.
  destruct (c_prices c (symbol (c_signal c))) as [p|e] eqn:Hp; cbn [bind]; [|auto].
  pose proof (Hq _ _ Hp) as Hp0.
  destruct (dict_get (symbol (c_signal c)) (positions self)) as [pos|] eqn:Hpos.
  - destruct (String.eqb (action (c_signal c)) "BUY"); [auto|].
    destruct (String.eqb (action (c_signal c)) "SELL" && String.eqb (direction pos) "long");
      [|auto].
    destruct (py_div p (entry_price pos)) as [r|e]; cbn [bind]; [|auto].
    cbn [config balance positions].
    assert (Ha : 0 <= amount pos).
    { apply dict_get_In in Hpos.
      exact (proj1 (Forall_forall _ _) Hamt _ Hpos). }
    assert (Hv : 0 <= amount pos * p) by now apply Qmult_le_0_compat.
    pose proof (net_of_fee_nonneg _ _ Hv Hfee) as Hnet.
    split; [reflexivity|]. split; [lra|]. now apply Forall_dict_pop.
  - destruct (String.eqb (action (c_signal c)) "BUY"); [|auto].
    unfold py_div. destruct (Qeq_bool p 0) eqn:Hz; cbn [bind]; [auto|].
    apply Qeq_bool_neq in Hz.
    destruct (Qle_bool _ (balance self)) eqn:Hfunds; cbn [negb]; [|auto].
    apply Qle_bool_iff in Hfunds.
    cbn [config balance positions].
    split; [reflexivity|]. split; [lra|].
    apply Forall_dict_set; [exact Hamt|]. cbn [snd amount].
    assert (Hsize : 0 <= balance self
                         * config_get position_size_pct 20 (config self) / 100).
    { apply Qdiv100_nonneg. now apply Qmult_le_0_compat. }
    apply Qle_shift_div_l; [|lra].
    destruct (Qlt_le_dec 0 p) as [H|H]; [exact H|].
    exfalso. apply Hz. lra.
Qed.

(** With a position size and a fee that are percentages and a trader that
    never quotes a negative price, no sequence of paper trades drives a
    non-negative balance below zero. *)
Theorem paper_balance_never_negative (calls : list Call) (self : PaperTradeMode) :
  sane_config (config self) ->
  Forall quotes_nonnegative calls ->
  0 <= balance self ->
  amounts_nonnegative (positions self) ->
  0 <= balance (run_calls calls self).
Proof.
  intros Hcfg Hcalls. revert self Hcfg.
  induction Hcalls as [|c calls Hc _ IH]; intros self Hcfg Hbal Hamt;
    unfold run_calls in *; cbn [fold_left]; [exact Hbal|].
  destruct (run_call_invariant c self Hcfg Hc Hbal Hamt) as (Hcfg' & Hbal' & Hamt').
  apply IH; [now rewrite Hcfg' | exact Hbal' | exact Hamt'].
Qed.

Lemma paper_balance_never_negative_witness :
  0 <= balance (run_calls Scenario.paper_calls (init None)).
Proof.
  apply (paper_balance_never_negative Scenario.paper_calls (init None)).
  - split; [discriminate | split; discriminate].
  - constructor; [|constructor; [|constructor]];
      intros sym p [= <-]; discriminate.
  - discriminate.
  - constructor.
Defined.

Lemma run_call_history (c : Call) (self : PaperTradeMode) :
  unique_keys (positions self) ->
  unique_keys (positions (run_call c self)) /\
  exists new,
    trade_history (run_call c self) = trade_history self ++ new /\
    (List.length new <= 1)%nat.
Proof.
  intros Hu. unfold run_call, execute_trade.
  assert (Hsame : unique_keys (positions self) /\
                  exists new, trade_history self = trade_history self ++ new /\
                              (List.length new <= 1)%nat).
  { split; [exact Hu|]. exists []. rewrite app_nil_r. cbn. auto. }
  destruct (String.eqb (action (c_signal c)) "HOLD"); [exact Hsame|].
  unfold try_execute_trade.
  destruct (c_prices c (symbol (c_signal c))) as [p|e]; cbn [bind]; [|exact Hsame].
  destruct (dict_get (symbol (c_signal c)) (positions self)) as [pos|].
  - destruct (String.eqb (action (c_signal c)) "BUY"); [exact Hsame|].
    destruct (String.eqb (action (c_signal c)) "SELL" && String.eqb (direction pos) "long");
      [|exact Hsame].
    destruct (py_div p (entry_price pos)) as [r|e]; cbn [bind]; [|exact Hsame].
    cbn [positions trade_history]. split; [now apply unique_keys_pop|].
    eexists. split; [reflexivity | cbn; lia].
  - destruct (String.eqb (action (c_signal c)) "BUY"); [|exact Hsame].
    destruct (py_div _ p) as [a|e]; cbn [bind]; [|exact Hsame].
    destruct (negb _); [exact Hsame|].
    cbn [positions trade_history]. split; [now apply unique_keys_set|].
    eexists. split; [reflexivity | cbn; lia].
Qed.

(** Paper mode holds at most one position per symbol, and its history only
    grows, by at most one entry per call: after any sequence of calls on a
    fresh instance the history is no longer than the sequence. *)
Theorem paper_positions_and_history (calls : list Call) (config : option PaperConfig)
    (sym : string) :
  (dict_count sym (positions (run_calls calls (init config))) <= 1)%nat /\
  (List.length (trade_history (run_calls calls (init config)))
   <= List.length calls)%nat.
Proof.
  assert (Hgen : forall calls self,
            unique_keys (positions self) ->
            unique_keys (positions (run_calls calls self)) /\
            (List.length (trade_history (run_calls calls self))
             <= List.length (trade_history self) + List.length calls)%nat).
  { clear. induction calls as [|c calls IH]; intros self Hu;
      unfold run_calls in *; cbn [fold_left List.length].
    - split; [exact Hu | lia].
    - destruct (run_call_history c self Hu) as (Hu' & new & Hh & Hlen).
      destruct (IH _ Hu') as [Hu'' Hlen'']. split; [exact Hu''|].
      rewrite Hh, length_app in Hlen''. lia. }
  destruct (Hgen calls (init config)) as [Hu Hlen].
  - cbn [init positions]. apply unique_keys_nil.
  - split; [apply Hu | cbn [init trade_history List.length] in Hlen; lia].
Qed.

End PaperInvariants.

(** ** More on the live position manager *)

Section LiveMore.

Import Live.

Context {RS : RiskSizer}.

Lemma dict_mem_set {V : Type} (k k' : string) (v : V) (d : dict V) :
  dict_mem k d = true -> dict_mem k (dict_set k' v d) = true.
Proof.
  unfold dict_mem. induction d as [|[k0 v0] d IH]; cbn [dict_get dict_set];
    [discriminate|].
  destruct (String.eqb k' k0) eqn:E'; cbn [dict_get].
  - apply String.eqb_eq in E'. subst k0.
    destruct (String.eqb k k'); [reflexivity | auto].
  - destruct (String.eqb k k0); [reflexivity | exact IH].
Qed.

(** The positions dict is empty or holds the single key BTCUSDT. *)
Lemma close_position_single (symbol : string) (self : PositionManager) :
  positions self = [] \/ (exists pos, positions self = [("BTCUSDT"%string, pos)]) ->
  positions (_close_position symbol self) = []
  \/ (exists pos, positions (_close_position symbol self) = [("BTCUSDT"%string, pos)]).
Proof.
  unfold _close_position. intros [H | (pos & H)]; rewrite H; cbn [dict_pop].
  - left. reflexivity.
  - destruct (String.eqb symbol "BTCUSDT"); cbn [positions send_order]; eauto.
Qed.

Lemma monitor_items_single (last_price : string -> result Q)
    (items : list (string * LivePosition)) :
  forall self,
    positions self = [] \/ (exists pos, positions self = [("BTCUSDT"%string, pos)]) ->
    positions (fst (monitor_items last_price items self)) = []
    \/ (exists pos,
          positions (fst (monitor_items last_price items self))
          = [("BTCUSDT"%string, pos)]).
Proof.
  induction items as [|[symbol position] items IH]; intros self H;
    cbn [monitor_items]; [exact H|].
  destruct (last_price symbol) as [current_price|e]; [|exact H].
  apply IH.
  repeat match goal with
         | |- context [if ?c then _ else _] => destruct c
         end;
    repeat apply close_position_single; exact H.
Qed.

(** Whatever the signals say, the live manager only ever tracks the symbol
    BTCUSDT: after any sequence of calls on a fresh manager its positions
    are empty or hold that single key. *)
Theorem live_tracks_only_BTCUSDT (steps : list step) :
  positions (run_steps steps init) = []
  \/ exists pos, positions (run_steps steps init) = [("BTCUSDT"%string, pos)].
Proof.
  assert (Hgen : forall steps self,
            positions self = [] \/ (exists pos, positions self = [("BTCUSDT"%string, pos)]) ->
            positions (run_steps steps self) = []
            \/ exists pos, positions (run_steps steps self) = [("BTCUSDT"%string, pos)]).
  { clear steps. induction steps as [|s steps IH]; intros self H; cbn [run_steps];
      [exact H|].
    apply IH. destruct s as [env sig|last_price]; cbn [run_step].
    - unfold execute.
      destruct (signal sig =? 0)%Z; [exact H|].
      destruct (negb (_can_trade _ _ _)); [exact H|].
      destruct (_get_volatility _) as [volatility|e]; [|exact H].
      destruct (calculate_position_size_kw _ _ _) as [size|e]; [|exact H].
      assert (Hopen : forall side,
                positions (fst (_open_position env "BTCUSDT" side size
                                  (s_stop_loss sig) (s_take_profit sig) self)) = []
                \/ exists pos,
                     positions (fst (_open_position env "BTCUSDT" side size
                                       (s_stop_loss sig) (s_take_profit sig) self))
                     = [("BTCUSDT"%string, pos)]).
      { intros side. unfold _open_position.
        destruct (order_fills env) as [[|fill fills]|];
          cbn [fst positions send_order]; try exact H.
        right. destruct H as [-> | (pos & ->)]; cbn [dict_set String.eqb Ascii.eqb Bool.eqb];
          eauto. }
      destruct (signal sig =? 1)%Z; [apply Hopen|].
      destruct (signal sig =? -1)%Z; [apply Hopen | exact H].
    - now apply monitor_items_single. }
  apply Hgen. left. reflexivity.
Qed.

(** What [execute] can do: it sends no order, or exactly one, for BTCUSDT in
    the direction of the signal, sized by the risk manager at the default
    volatility 0.01, and then only if no candles came back; it never removes
    a tracked position and never sends an order closing the one it replaces. *)
Theorem execute_effects (env : ExecEnv) (sig : LiveSignal) (self : PositionManager) :
  (orders (fst (execute env sig self)) = orders self
   \/ exists size,
        ohlcv_1h env = [] /\
        calculate_position_size_kw (1 # 100) (1 # 100) "volatility" = Ok size /\
        orders (fst (execute env sig self))
        = orders self
          ++ [mkOrder "BTCUSDT" (if (signal sig =? 1)%Z then "BUY" else "SELL")
                "MARKET" size]) /\
  (forall k, dict_mem k (positions self) = true ->
             dict_mem k (positions (fst (execute env sig self))) = true).
Proof.
  unfold execute.
  destruct (signal sig =? 0)%Z; [auto|].
  destruct (negb (_can_trade _ _ _)); [auto|].
  unfold _get_volatility.
  destruct (ohlcv_1h env) as [|c cs] eqn:Hcandles; [|auto].
  destruct (calculate_position_size_kw _ _ _) as [size|e] eqn:Hsize; [|auto].
  assert (Hopen : forall side,
            orders (fst (_open_position env "BTCUSDT" side size
                           (s_stop_loss sig) (s_take_profit sig) self))
            = orders self ++ [mkOrder "BTCUSDT" side "MARKET" size] /\
            (forall k, dict_mem k (positions self) = true ->
               dict_mem k (positions (fst (_open_position env "BTCUSDT" side size
                                             (s_stop_loss sig) (s_take_profit sig) self)))
               = true)).
  { intros side. unfold _open_position.
    destruct (order_fills env) as [[|fill fills]|];
      cbn [fst positions orders send_order]; split; auto.
    intros k Hk. now apply dict_mem_set. }
  destruct (signal sig =? 1)%Z.
  - destruct (Hopen "BUY"%string) as [Ho Hk]. split; [|exact Hk].
    right. exists size. auto.
  - destruct (signal sig =? -1)%Z; [|auto].
    destruct (Hopen "SELL"%string) as [Ho Hk]. split; [|exact Hk].
    right. exists size. auto.
Qed.

End LiveMore.

Section LiveMonitor.

Import Live.

(** A manager whose single position was closed by an order for [side]. *)
Lemma close_single (s : string) (pos : LivePosition) (self : PositionManager) :
  positions self = [(s, pos)] ->
  _close_position s self
  = {| positions := [];
       last_trade_time := last_trade_time self;
       min_trade_interval := min_trade_interval self;
       orders := orders self
                 ++ [mkOrder s (if String.eqb (side pos) "BUY" then "SELL" else "BUY")
                       "MARKET" (quantity pos)] |}.
Proof.
  intros H. unfold _close_position. rewrite H. cbn [dict_pop].
  rewrite String.eqb_refl. reflexivity.
Qed.

Lemma close_nothing (s : string) (self : PositionManager) :
  positions self = [] -> _close_position s self = self.
Proof.
  intros H. unfold _close_position. rewrite H. cbn [dict_pop].
  destruct self. cbn in *. now subst.
Qed.

(** Monitoring a manager that tracks one position: a long (BUY) position is
    closed when the price is at or below its stop or at or above its take
    level, by exactly one SELL order for its quantity, even when both
    triggers hold; it is left in place while the price stays strictly
    between the two.  When the price lookup raises, the exception leaves
    [monitor_positions] and the position stays. *)
Theorem monitor_long_position (last_price : string -> result Q)
    (self : PositionManager) (s : string) (pos : LivePosition) :
  positions self = [(s, pos)] -> side pos = "BUY"%string ->
  (forall p, last_price s = Ok p ->
     (p <= stop_loss pos \/ take_profit pos <= p) ->
     monitor_positions last_price self
     = ({| positions := [];
           last_trade_time := last_trade_time self;
           min_trade_interval := min_trade_interval self;
           orders := orders self ++ [mkOrder s "SELL" "MARKET" (quantity pos)] |},
        Ok tt)) /\
  (forall p, last_price s = Ok p ->
     stop_loss pos < p < take_profit pos ->
     monitor_positions last_price self = (self, Ok tt)) /\
  (forall e, last_price s = Raise e ->
     monitor_positions last_price self = (self, Raise e)).
Proof.
  intros Hpos Hside. unfold monitor_positions. rewrite Hpos. cbn [monitor_items].
  pose proof (close_single s pos self Hpos) as Hclose.
  rewrite Hside in Hclose. cbn [String.eqb Ascii.eqb Bool.eqb] in Hclose.
  split; [|split].
  - intros p -> Htrig. rewrite Hside. cbn [String.eqb Ascii.eqb Bool.eqb andb].
    destruct (Qle_bool p (stop_loss pos)) eqn:Hsl.
    + rewrite Hclose.
      destruct (Qle_bool (take_profit pos) p); [|reflexivity].
      rewrite close_nothing; reflexivity.
    + destruct (Qle_bool (take_profit pos) p) eqn:Htp.
      * rewrite Hclose. reflexivity.
      * apply Qle_bool_false_inv in Hsl, Htp. destruct Htrig; lra.
  - intros p -> [H1 H2]. rewrite Hside. cbn [String.eqb Ascii.eqb Bool.eqb andb].
    rewrite (Qle_bool_false _ _ H1), (Qle_bool_false _ _ H2). reflexivity.
  - intros e ->. reflexivity.
Qed.

Lemma monitor_long_position_witness :
  monitor_positions (fun _ => Ok 94)
    (fst (@execute Scenario.volatility_sizer Scenario.first_call
            Scenario.live_buy init))
  = ({| positions := [];
        last_trade_time :=
          last_trade_time (fst (@execute Scenario.volatility_sizer
                                  Scenario.first_call Scenario.live_buy init));
        min_trade_interval := 60;
        orders :=
          orders (fst (@execute Scenario.volatility_sizer Scenario.first_call
                         Scenario.live_buy init))
          ++ [mkOrder "BTCUSDT" "SELL" "MARKET" (10000 * (1 # 100) / (1 # 100))] |},
     Ok tt).
Proof.
  refine (proj1 (monitor_long_position (fun _ => Ok 94)
                   (fst (@execute Scenario.volatility_sizer Scenario.first_call
                           Scenario.live_buy init))
                   "BTCUSDT"
                   {| side := "BUY"; quantity := 10000 * (1 # 100) / (1 # 100);
                      entry_price := 50000;
                      stop_loss := 49000; take_profit := 52000 |} _ _) 94 _ _).
  - vm_compute. reflexivity.
  - reflexivity.
  - reflexivity.
  - left. vm_compute. discriminate.
Defined.

(** With the repository's own [RiskManager], whose sizing method takes none
    of the keywords [execute] passes, [execute] never sends an order nor
    changes the manager, and every signal other than hold that gets past the
    re-entry interval ends in an exception. *)
Theorem repository_risk_manager_blocks_execute (env : ExecEnv)
    (sig : LiveSignal) (self : PositionManager) :
  fst (@execute RiskManager_sizer env sig self) = self /\
  (signal sig <> 0%Z ->
   _can_trade (clock_can_trade env) self "BTCUSDT" = true ->
   exists e, snd (@execute RiskManager_sizer env sig self) = Raise e).
Proof.
  split; [apply execute_with_repository_risk_manager|].
  intros Hsig Hcan. unfold execute.
  apply Z.eqb_neq in Hsig. rewrite Hsig, Hcan. cbn [negb].
  destruct (_get_volatility _) as [v|e]; cbn; eauto.
Qed.

Lemma repository_risk_manager_blocks_execute_witness :
  exists e,
    snd (@execute RiskManager_sizer Scenario.first_call Scenario.live_buy init)
    = Raise e.
Proof.
  apply (proj2 (repository_risk_manager_blocks_execute Scenario.first_call
                  Scenario.live_buy init)).
  - discriminate.
  - reflexivity.
Defined.

End LiveMonitor.

(** ** Order of the trades in time *)

Section BacktestChronology.

Import Backtest Scenario.

Lemma StronglySorted_snoc {A : Type} (R : A -> A -> Prop) (l : list A) (x : A) :
  StronglySorted R l -> Forall (fun y => R y x) l -> StronglySorted R (l ++ [x]).
Proof.
  induction 1 as [|y l Hl IH Hy]; intros Hall; cbn [app].
  - constructor; constructor.
  - inversion Hall as [|? ? Hyx Hall']; subst.
    constructor; [now apply IH|].
    apply Forall_app. split; [exact Hy | now constructor].
Qed.

(** What a bar can add to the ledger when a position is open. *)
Lemma loop_body_times (p : Params) (row : Bar) (st st' : LoopState) :
  loop_body p row st = Ok st' ->
  match position st with
  | None =>
      trades st' = trades st /\
      match position st' with
      | Some q => entry_time q = timestamp row
      | None => True
      end
  | Some q =>
      (position st' = Some q /\ trades st' = trades st)
      \/ (position st' = None /\
          exists t, trades st' = trades st ++ [t] /\
                    t_entry_time t = entry_time q /\
                    t_exit_time t = timestamp row)
  end.
Proof.
  unfold loop_body, _process_signal. intros H.
  destruct (position st) as [q|].
  - destruct (String.eqb (direction q) "long").
    + destruct (Qle_bool (price row) (stop_loss q)).
      * apply bind_inv in H as ([[b' pos'] new] & Hr & [= <-]).
        apply bind_inv in Hr as (x & _ & [= <- <- <-]). cbn [position trades].
        right. split; [reflexivity|]. eexists. split; [reflexivity|]. now split.
      * destruct (Qle_bool (take_profit q) (price row)).
        -- apply bind_inv in H as ([[b' pos'] new] & Hr & [= <-]).
           apply bind_inv in Hr as (x & _ & [= <- <- <-]). cbn [position trades].
           right. split; [reflexivity|]. eexists. split; [reflexivity|]. now split.
        -- cbn [bind] in H. injection H as <-. cbn [position trades].
           left. now rewrite app_nil_r.
    + cbn [bind] in H. injection H as <-. cbn [position trades].
      left. now rewrite app_nil_r.
  - destruct (String.eqb (action (signal row)) "BUY").
    + apply bind_inv in H as ([[b' pos'] new] & Hr & [= <-]).
      apply bind_inv in Hr as (x & _ & [= <- <- <-]). cbn [position trades entry_time].
      now rewrite app_nil_r.
    + cbn [bind] in H. injection H as <-. cbn [position trades].
      now rewrite app_nil_r.
Qed.

(** The ledger is in order and closed up to the instant [lo], and the open
    position, if any, was entered after every trade and no later than [lo]. *)
Lemma backtest_loop_chronology (p : Params) (rows : list Bar) :
  StronglySorted Z.lt (map timestamp rows) ->
  forall (lo : Z) (st st' : LoopState),
    Forall (fun row => (lo < timestamp row)%Z) rows ->
    StronglySorted closed_before (trades st) ->
    Forall (fun t => (t_entry_time t < t_exit_time t <= lo)%Z) (trades st) ->
    match position st with
    | Some q => (entry_time q <= lo)%Z /\
                Forall (fun t => (t_exit_time t <= entry_time q)%Z) (trades st)
    | None => True
    end ->
    backtest_loop p rows st = Ok st' ->
    StronglySorted closed_before (trades st') /\
    Forall (fun t => (t_entry_time t < t_exit_time t)%Z) (trades st').
Proof.
  induction rows as [|row rows IH]; intros Hsorted lo st st' Hlo Hs Hall Hpos H;
    cbn [backtest_loop map] in *.
  - injection H as <-. split; [exact Hs|].
    eapply Forall_impl; [|exact Hall]. cbn beta. intros t Ht. lia.
  - apply bind_inv in H as (st1 & Hbody & Hrest).
    inversion Hsorted as [|? ? Hsorted' Hfirst]; subst.
    inversion Hlo as [|? ? Hrow Hlo']; subst.
    assert (Hnext : Forall (fun r => (timestamp row < timestamp r)%Z) rows).
    { apply Forall_forall. intros r Hin.
      apply (proj1 (Forall_forall _ _) Hfirst). now apply in_map. }
    assert (Hall' : Forall (fun t => (t_entry_time t < t_exit_time t <= timestamp row)%Z)
                      (trades st)).
    { eapply Forall_impl; [|exact Hall]. cbn beta. intros t Ht. lia. }
    pose proof (loop_body_times _ _ _ _ Hbody) as Htimes.
    apply (IH Hsorted' (timestamp row) st1 st' Hnext); [| | |exact Hrest].
    + destruct (position st) as [q|].
      * destruct Htimes as [(_ & ->) | (_ & t & -> & He & Hx)]; [exact Hs|].
        apply StronglySorted_snoc; [exact Hs|].
        destruct Hpos as [_ Hbefore].
        eapply Forall_impl; [|exact Hbefore]. cbn beta. unfold closed_before.
        intros t0 Ht0. lia.
      * destruct Htimes as [-> _]. exact Hs.
    + destruct (position st) as [q|].
      * destruct Htimes as [(_ & ->) | (_ & t & -> & He & Hx)]; [exact Hall'|].
        apply Forall_app. split; [exact Hall'|].
        destruct Hpos as [Hq _]. constructor; [lia | constructor].
      * destruct Htimes as [-> _]. exact Hall'.
    + destruct (position st) as [q|].
      * destruct Htimes as [(-> & ->) | (-> & _)]; [|exact I].
        destruct Hpos as [Hq Hbefore]. split; [lia | exact Hbefore].
      * destruct Htimes as [-> Hq]. destruct (position st1) as [q|]; [|exact I].
        split; [lia|].
        eapply Forall_impl; [|exact Hall]. cbn beta. intros t Ht. lia.
Qed.

(** On bars with strictly ascending timestamps the trades of the ledger do
    not overlap: each one is closed strictly after it was entered, and no
    later than any trade that follows it in the ledger was entered. *)
Theorem trades_do_not_overlap (p : Params) (rows : list Bar)
    (initial_capital : Q) (st : LoopState) :
  StronglySorted Z.lt (map timestamp rows) ->
  backtest_loop p rows (initial_state initial_capital) = Ok st ->
  StronglySorted closed_before (trades st) /\
  Forall (fun t => (t_entry_time t < t_exit_time t)%Z) (trades st).
Proof.
  intros Hsorted H.
  destruct rows as [|row rows].
  - cbn in H. injection H as <-. split; constructor.
  - apply (backtest_loop_chronology p (row :: rows) Hsorted (timestamp row - 1)
             (initial_state initial_capital) st); try constructor; try exact H.
    + lia.
    + cbn [map] in Hsorted. inversion Hsorted as [|? ? _ Hfirst]; subst.
      apply Forall_forall. intros r Hin.
      pose proof (proj1 (Forall_forall _ _) Hfirst _ (in_map timestamp _ _ Hin)). lia.
Qed.

Lemma trades_do_not_overlap_witness :
  exists st,
    backtest_loop (read_params []) reentry_bars (initial_state 10000) = Ok st /\
    StronglySorted closed_before (trades st) /\
    Forall (fun t => (t_entry_time t < t_exit_time t)%Z) (trades st).
Proof.
  eexists. split; [vm_compute; reflexivity|].
  apply (trades_do_not_overlap (read_params []) reentry_bars 10000).
  - repeat constructor.
  - vm_compute. reflexivity.
Defined.

End BacktestChronology.

Section LiveWitness.

Import Live.

Lemma execute_effects_witness :
  dict_mem "BTCUSDT"
    (positions
       (fst (@execute Scenario.volatility_sizer Scenario.third_call Scenario.live_buy
               (fst (@execute Scenario.volatility_sizer Scenario.first_call
                       Scenario.live_buy init)))))
  = true.
Proof.
  apply (proj2 (@execute_effects Scenario.volatility_sizer Scenario.third_call
                  Scenario.live_buy
                  (fst (@execute Scenario.volatility_sizer Scenario.first_call
                          Scenario.live_buy init)))).
  vm_compute. reflexivity.
Defined.

End LiveWitness.
